(** * dinorun3d: the OBJ loader (src/ObjLoader.cpp, include/ObjLoader.hpp)

    A shallow embedding of [ObjLoader::ObjLoader], [ObjLoader::load] and
    [ObjLoader::getTriangles], with the part of the C++ stream library the
    loader calls ([std::getline], [operator>>] on strings, ints and floats,
    [peek], [get]) written out over an explicit stream state. *)

From Stdlib Require Import Bool Ascii String List ZArith Lia.
From Stdlib Require Import Floats.SpecFloat.
Import ListNotations.

Local Open Scope string_scope.
Local Open Scope Z_scope.

(* ================================================================= *)
(** ** Characters and strings *)

(** [std::isspace] in the "C" locale: space, \t, \n, \v, \f, \r. *)
Definition isspace (c : ascii) : bool :=
  let n := nat_of_ascii c in
  (Nat.eqb n 32 || (Nat.leb 9 n && Nat.leb n 13))%bool.

Definition isdigit (c : ascii) : bool :=
  let n := nat_of_ascii c in (Nat.leb 48 n && Nat.leb n 57)%bool.

Definition digit_val (c : ascii) : Z := Z.of_nat (nat_of_ascii c) - 48.

(** The longest prefix of [s] whose characters satisfy [p], and the rest. *)
Fixpoint span (p : ascii -> bool) (s : string) : string * string :=
  match s with
  | EmptyString => (EmptyString, EmptyString)
  | String c r =>
      if p c then let (a, b) := span p r in (String c a, b)
      else (EmptyString, s)
  end.

Definition is_empty (s : string) : bool :=
  match s with EmptyString => true | _ => false end.

(** Value of a run of decimal digits, most significant first. *)
Fixpoint digits_val (acc : Z) (s : string) : Z :=
  match s with
  | EmptyString => acc
  | String c r => digits_val (10 * acc + digit_val c) r
  end.

(** [std::string::find_last_of(ch)]: position of the last occurrence,
    [None] for [npos]. *)
Fixpoint find_last_of (s : string) (ch : ascii) : option nat :=
  match s with
  | EmptyString => None
  | String c r =>
      match find_last_of r ch with
      | Some k => Some (S k)
      | None => if Ascii.eqb c ch then Some O else None
      end
  end.

(** [s.substr(0, n)]; a count beyond the length ([npos] included) takes the
    whole string. *)
Definition substr0 (s : string) (n : option nat) : string :=
  match n with
  | Some k => String.substring 0 k s
  | None => s
  end.

(** The sequence of lines successive [std::getline(file, line)] calls
    deliver: the content is cut at every '\n', the delimiter is dropped, and
    a final line without delimiter is still delivered when it is not empty. *)
Fixpoint getlines (s : string) : list string :=
  match s with
  | EmptyString => []
  | String c r =>
      if Ascii.eqb c "010"%char then EmptyString :: getlines r
      else match getlines r with
           | [] => [String c EmptyString]
           | l :: ls => String c l :: ls
           end
  end.

(* ================================================================= *)
(** ** 32-bit [int] *)

Definition INT_MIN : Z := - 2 ^ 31.
Definition INT_MAX : Z := 2 ^ 31 - 1.

(** Two's-complement wrap-around into the range of [int]. *)
Definition wrap32 (z : Z) : Z := (z + 2 ^ 31) mod 2 ^ 32 - 2 ^ 31.

(** [--n] on an [int], as the two's-complement machine computes it (at
    [INT_MIN] the language leaves the overflow undefined). *)
Definition pre_decr (n : Z) : Z := wrap32 (n - 1).

(* ================================================================= *)
(** ** Input string streams *)

Module IStream.

(** The state of a [std::istringstream]: the characters not yet consumed
    and the two state bits the loader can set. *)
Record t := mk { buf : string; eofbit : bool; failbit : bool }.

Definition of_string (s : string) : t := mk s false false.

Definition good (s : t) : bool := (negb (eofbit s) && negb (failbit s))%bool.

Definition set_fail (s : t) : t := mk (buf s) (eofbit s) true.

(** A computation on a stream: the value produced and the stream after. *)
Definition M (A : Type) : Type := t -> A * t.

Definition ret {A} (a : A) : M A := fun s => (a, s).
Definition bind {A B} (m : M A) (k : A -> M B) : M B :=
  fun s => let (a, s') := m s in k a s'.

(** [istream::sentry]: fails (setting failbit) on a stream that is not
    good; otherwise, unless [noskipws], discards leading white space, and
    fails with eofbit and failbit when that reaches the end. *)
Definition sentry (noskipws : bool) : M bool := fun s =>
  if negb (good s) then (false, set_fail s)
  else if noskipws then (true, s)
  else
    let b := snd (span isspace (buf s)) in
    if is_empty b then (false, mk b true true)
    else (true, mk b false false).

(** [is >> str] for [std::string]: the target keeps its old value when the
    sentry fails, otherwise receives the next white-space delimited token. *)
Definition extract_string (old : string) : M string :=
  bind (sentry false) (fun ok s =>
    if ok then
      let (tok, rest) := span (fun c => negb (isspace c)) (buf s) in
      (tok, mk rest (is_empty rest) (is_empty tok))
    else (old, s)).

(** [is.peek()]: [None] stands for [traits::eof()]. *)
Definition peek : M (option ascii) :=
  bind (sentry true) (fun ok s =>
    if ok then
      match buf s with
      | EmptyString => (None, mk EmptyString true (failbit s))
      | String c _ => (Some c, s)
      end
    else (None, s)).

(** [is.get()]. *)
Definition get : M (option ascii) :=
  bind (sentry true) (fun ok s =>
    if ok then
      match buf s with
      | EmptyString => (None, mk EmptyString true true)
      | String c r => (Some c, mk r false false)
      end
    else (None, s)).

(** [is >> n] for [int] ([std::num_get], decimal base): an optional sign
    and a run of digits.  No digit: 0 is stored and failbit set.  A value
    outside [int]: the nearest bound is stored and failbit set.  The target
    keeps its old value when the sentry fails. *)
Definition extract_int (old : Z) : M Z :=
  bind (sentry false) (fun ok s =>
    if ok then
      let (neg, b1) :=
        match buf s with
        | String "-"%char r => (true, r)
        | String "+"%char r => (false, r)
        | b => (false, b)
        end in
      let (ds, rest) := span isdigit b1 in
      let eof := is_empty rest in
      if is_empty ds then (0, mk rest eof true)
      else
        let v := if neg : bool then - digits_val 0 ds else digits_val 0 ds in
        if v <? INT_MIN then (INT_MIN, mk rest eof true)
        else if INT_MAX <? v then (INT_MAX, mk rest eof true)
        else (v, mk rest eof false)
    else (old, s)).

End IStream.

Declare Scope stream_scope.
Delimit Scope stream_scope with stream.
Notation "x <- m ;; k" := (IStream.bind m (fun x => k))
  (at level 61, m at next level, right associativity) : stream_scope.
Notation "m ;;; k" := (IStream.bind m (fun _ => k))
  (at level 61, right associativity) : stream_scope.

(* ================================================================= *)
(** ** Data model (include/ObjLoader.hpp) *)

(** A C++ [float] is an IEEE 754 value.  The loader only stores and copies
    floats; it does no arithmetic on them. *)
Definition float : Type := spec_float.

(** A C array [T a[3]].  Every loop of the loader runs its index over
    0, 1, 2 only. *)
Definition arr3 (A : Type) : Type := (A * A * A)%type.

Definition aget {A} (a : arr3 A) (i : nat) : A :=
  let '(a0, a1, a2) := a in
  match i with O => a0 | S O => a1 | _ => a2 end.

Definition aset {A} (a : arr3 A) (i : nat) (v : A) : arr3 A :=
  let '(a0, a1, a2) := a in
  match i with
  | O => (v, a1, a2)
  | S O => (a0, v, a2)
  | S (S O) => (a0, a1, v)
  | _ => a
  end.

Definition arev {A} (a : arr3 A) : arr3 A :=
  let '(a0, a1, a2) := a in (a2, a1, a0).

Module Vertex.
Record t := mk { x : float; y : float; z : float;
                 r : float; g : float; b : float;
                 nx : float; ny : float; nz : float }.
End Vertex.

Module TextureCoords.
Record t := mk { u : float; v : float }.
End TextureCoords.

Module Normal.
Record t := mk { nx : float; ny : float; nz : float }.
End Normal.

Module Triangle.
Record t := mk { vertices : arr3 Vertex.t;
                 normals : arr3 Normal.t;
                 textures : arr3 TextureCoords.t }.
End Triangle.

Module Face.
Record t := mk { vertexIndices : arr3 Z;
                 textureIndices : arr3 Z;
                 normalIndices : arr3 Z }.

Definition set_vertexIndex (f : t) (i : nat) (n : Z) : t :=
  mk (aset (vertexIndices f) i n) (textureIndices f) (normalIndices f).
Definition set_textureIndex (f : t) (i : nat) (n : Z) : t :=
  mk (vertexIndices f) (aset (textureIndices f) i n) (normalIndices f).
Definition set_normalIndex (f : t) (i : nat) (n : Z) : t :=
  mk (vertexIndices f) (textureIndices f) (aset (normalIndices f) i n).
End Face.

Module ObjLoader.
Record t := mk { modelType : Z;
                 vertices : list Vertex.t;
                 textures : list TextureCoords.t;
                 normals : list Normal.t;
                 faces : list Face.t;
                 textureName : string }.
End ObjLoader.

(** Process-wide variables: [std::string gTextureName], empty when the
    process starts. *)
Record Globals := mkGlobals { gTextureName : string }.

Definition process_start : Globals := mkGlobals EmptyString.

(** What the loader takes from outside the program text: the files, and the
    bytes found in the storage of the locals it declares without an
    initialiser ([Vertex vertex;], [TextureCoords texture;], [Normal
    normal;], [Face face;], each indexed by the 0-based number of the line
    being read) and of the not yet assigned member [modelType]. *)
Record Env := mkEnv {
  fs : string -> option string;
  uninit_Vertex : nat -> Vertex.t;
  uninit_TextureCoords : nat -> TextureCoords.t;
  uninit_Normal : nat -> Normal.t;
  uninit_Face : nat -> Face.t;
  uninit_modelType : Z
}.

(** The lines read from [std::ifstream file(path)]; a file that cannot be
    opened delivers none. *)
Definition ifstream_lines (env : Env) (path : string) : list string :=
  match fs env path with
  | Some content => getlines content
  | None => []
  end.

(* ================================================================= *)
(** ** ObjLoader::load and the constructor (src/ObjLoader.cpp) *)

Section Load.

Import IStream.
Local Open Scope stream_scope.

(** [std::num_get] for [float], which the repository takes from the C++
    library: from the unread characters (the first is not white space) it
    gives the value stored in the target, whether the conversion failed
    (failbit), and the characters left unread. *)
Variable num_get_float : string -> float * bool * string.

(** [is >> f] for [float]. *)
Definition extract_float (old : float) : M float :=
  ok <- sentry false ;;
  fun s =>
    if ok : bool then
      let '(val, fail, rest) := num_get_float (buf s) in
      (val, IStream.mk rest (is_empty rest) fail)
    else (old, s).

Definition is_slash (c : option ascii) : bool :=
  match c with
  | Some ch => Ascii.eqb ch "/"%char
  | None => false
  end.

(** One turn of the corner loop of the [f] branch (lines 43-58). *)
Definition read_corner (i : nat) (face : Face.t) : M Face.t :=
  vi <- extract_int (aget (Face.vertexIndices face) i) ;;
  let face := Face.set_vertexIndex face i vi in
  c <- peek ;;
  face <- (if is_slash c then
             get ;;;
             c2 <- peek ;;
             face <- (if negb (is_slash c2) then
                        ti <- extract_int (aget (Face.textureIndices face) i) ;;
                        ret (Face.set_textureIndex face i ti)
                      else ret face) ;;
             c3 <- peek ;;
             (if is_slash c3 then
                get ;;;
                ni <- extract_int (aget (Face.normalIndices face) i) ;;
                ret (Face.set_normalIndex face i ni)
              else ret face)
           else ret face) ;;
  let face := Face.set_vertexIndex face i
                (pre_decr (aget (Face.vertexIndices face) i)) in
  let face := Face.set_textureIndex face i
                (pre_decr (aget (Face.textureIndices face) i)) in
  let face := Face.set_normalIndex face i
                (pre_decr (aget (Face.normalIndices face) i)) in
  ret face.

Definition read_face (face : Face.t) : M Face.t :=
  face <- read_corner 0 face ;;
  face <- read_corner 1 face ;;
  read_corner 2 face.

Definition read_Vertex (vertex : Vertex.t) : M Vertex.t :=
  x <- extract_float (Vertex.x vertex) ;;
  y <- extract_float (Vertex.y vertex) ;;
  z <- extract_float (Vertex.z vertex) ;;
  ret (Vertex.mk x y z (Vertex.r vertex) (Vertex.g vertex) (Vertex.b vertex)
         (Vertex.nx vertex) (Vertex.ny vertex) (Vertex.nz vertex)).

Definition read_TextureCoords (texture : TextureCoords.t) : M TextureCoords.t :=
  u <- extract_float (TextureCoords.u texture) ;;
  v <- extract_float (TextureCoords.v texture) ;;
  ret (TextureCoords.mk u v).

Definition read_Normal (normal : Normal.t) : M Normal.t :=
  nx <- extract_float (Normal.nx normal) ;;
  ny <- extract_float (Normal.ny normal) ;;
  nz <- extract_float (Normal.nz normal) ;;
  ret (Normal.mk nx ny nz).

(** The state [load] works on: the four vectors of [*this], its two string
    locals ([textureName] is the local of line 22, which hides the member
    of the same name) and the global. *)
Record LoadState := mkLoadState {
  ls_vertices : list Vertex.t;
  ls_textures : list TextureCoords.t;
  ls_normals : list Normal.t;
  ls_faces : list Face.t;
  ls_mtlFilename : string;
  ls_textureName : string;
  ls_global : Globals
}.

(** The inner loop over the material file (lines 64-73): the first line
    whose leading token is [map_Kd] sets the local and the global, and
    ends the scan. *)
Fixpoint scan_mtl (directory : string) (mtlLines : list string)
    (textureName : string) (g : Globals) : string * Globals :=
  match mtlLines with
  | [] => (textureName, g)
  | mtlLine :: rest =>
      let (mtlPrefix, mtlIss) := extract_string EmptyString (of_string mtlLine) in
      if String.eqb mtlPrefix "map_Kd" then
        let textureName' := fst (extract_string textureName mtlIss) in
        (textureName', mkGlobals (directory ++ "/" ++ textureName'))
      else scan_mtl directory rest textureName g
  end.

(** The leading token of a line: [iss >> prefix] on a fresh, empty
    [prefix]. *)
Definition read_prefix (line : string) : string * IStream.t :=
  extract_string EmptyString (of_string line).

(** The body of the [while (std::getline(file, line))] loop, for line
    number [n]. *)
Definition load_line (env : Env) (directory : string) (n : nat)
    (line : string) (st : LoadState) : LoadState :=
  let (prefix, iss) := read_prefix line in
  if String.eqb prefix "v" then
    let vertex := fst (read_Vertex (uninit_Vertex env n) iss) in
    mkLoadState (ls_vertices st ++ [vertex]) (ls_textures st) (ls_normals st)
      (ls_faces st) (ls_mtlFilename st) (ls_textureName st) (ls_global st)
  else if String.eqb prefix "vt" then
    let texture := fst (read_TextureCoords (uninit_TextureCoords env n) iss) in
    mkLoadState (ls_vertices st) (ls_textures st ++ [texture]) (ls_normals st)
      (ls_faces st) (ls_mtlFilename st) (ls_textureName st) (ls_global st)
  else if String.eqb prefix "vn" then
    let normal := fst (read_Normal (uninit_Normal env n) iss) in
    mkLoadState (ls_vertices st) (ls_textures st) (ls_normals st ++ [normal])
      (ls_faces st) (ls_mtlFilename st) (ls_textureName st) (ls_global st)
  else if String.eqb prefix "f" then
    let face := fst (read_face (uninit_Face env n) iss) in
    mkLoadState (ls_vertices st) (ls_textures st) (ls_normals st)
      (ls_faces st ++ [face]) (ls_mtlFilename st) (ls_textureName st)
      (ls_global st)
  else if String.eqb prefix "mtllib" then
    let mtlFilename := fst (extract_string (ls_mtlFilename st) iss) in
    let mtlLines := ifstream_lines env (directory ++ "/" ++ mtlFilename) in
    let (textureName, g) :=
      scan_mtl directory mtlLines (ls_textureName st) (ls_global st) in
    mkLoadState (ls_vertices st) (ls_textures st) (ls_normals st)
      (ls_faces st) mtlFilename textureName g
  else st.

Fixpoint load_lines (env : Env) (directory : string) (n : nat)
    (lines : list string) (st : LoadState) : LoadState :=
  match lines with
  | [] => st
  | line :: rest =>
      load_lines env directory (S n) rest (load_line env directory n line st)
  end.

(** [filename.substr(0, filename.find_last_of('/'))] (line 19). *)
Definition directory_of (filename : string) : string :=
  substr0 filename (find_last_of filename "/"%char).

(** [ObjLoader::load] on [*this] and the global. *)
Definition load (env : Env) (filename : string)
    (this : ObjLoader.t) (g : Globals) : ObjLoader.t * Globals :=
  let st0 := mkLoadState (ObjLoader.vertices this) (ObjLoader.textures this)
               (ObjLoader.normals this) (ObjLoader.faces this)
               EmptyString EmptyString g in
  let st := load_lines env (directory_of filename) O
              (ifstream_lines env filename) st0 in
  (ObjLoader.mk (ObjLoader.modelType this) (ls_vertices st) (ls_textures st)
     (ls_normals st) (ls_faces st) (ObjLoader.textureName this),
   ls_global st).

(** [ObjLoader::ObjLoader(filename, type)]: the members start default
    constructed ([modelType] unassigned), then lines 10-12. *)
Definition ObjLoader_new (env : Env) (filename : string) (type : Z)
    (g : Globals) : ObjLoader.t * Globals :=
  let this := ObjLoader.mk (uninit_modelType env) [] [] [] [] EmptyString in
  let (this, g') := load env filename this g in
  (ObjLoader.mk type (ObjLoader.vertices this) (ObjLoader.textures this)
     (ObjLoader.normals this) (ObjLoader.faces this) (gTextureName g'),
   g').

End Load.

Definition getTextureName (o : ObjLoader.t) : string := ObjLoader.textureName o.

(* ================================================================= *)
(** ** ObjLoader::getTriangles *)

(** [v[i]] on a [std::vector] with an [int] index: [operator[]] does no
    range check and is defined only for an index below [v.size()] (a
    negative [int] converts to a [size_type] beyond every size).  [None]
    stands for the access whose behaviour the language leaves undefined. *)
Definition at_index {A} (v : list A) (i : Z) : option A :=
  if i <? 0 then None else nth_error v (Z.to_nat i).

(** One turn of the inner loop (lines 99-101). *)
Definition resolve_corner (o : ObjLoader.t) (face : Face.t) (i : nat)
    : option (Vertex.t * Normal.t * TextureCoords.t) :=
  match at_index (ObjLoader.vertices o) (aget (Face.vertexIndices face) i) with
  | None => None
  | Some vertex =>
      match at_index (ObjLoader.normals o) (aget (Face.normalIndices face) i) with
      | None => None
      | Some normal =>
          match at_index (ObjLoader.textures o)
                  (aget (Face.textureIndices face) i) with
          | None => None
          | Some texture => Some (vertex, normal, texture)
          end
      end
  end.

(** The inner loop for i = 0, 1, 2: every slot of the local [triangle] is
    assigned. *)
Definition assemble_face (o : ObjLoader.t) (face : Face.t) : option Triangle.t :=
  match resolve_corner o face 0 with
  | None => None
  | Some (v0, n0, t0) =>
      match resolve_corner o face 1 with
      | None => None
      | Some (v1, n1, t1) =>
          match resolve_corner o face 2 with
          | None => None
          | Some (v2, n2, t2) =>
              Some (Triangle.mk (v0, v1, v2) (n0, n1, n2) (t0, t1, t2))
          end
      end
  end.

(** The outer loop over [faces], pushing onto [triangles]. *)
Fixpoint getTriangles_loop (o : ObjLoader.t) (faces : list Face.t)
    (triangles : list Triangle.t) : option (list Triangle.t) :=
  match faces with
  | [] => Some triangles
  | face :: rest =>
      match assemble_face o face with
      | None => None
      | Some triangle => getTriangles_loop o rest (triangles ++ [triangle])
      end
  end.

Definition getTriangles (o : ObjLoader.t) : option (list Triangle.t) :=
  getTriangles_loop o (ObjLoader.faces o) [].

(** Range predicates on the indices of a face, as booleans. *)
Definition index_ok {A} (v : list A) (i : Z) : bool :=
  ((0 <=? i) && (i <? Z.of_nat (length v)))%bool.

Definition corner_in_range (o : ObjLoader.t) (face : Face.t) (i : nat) : bool :=
  (index_ok (ObjLoader.vertices o) (aget (Face.vertexIndices face) i)
   && index_ok (ObjLoader.normals o) (aget (Face.normalIndices face) i)
   && index_ok (ObjLoader.textures o) (aget (Face.textureIndices face) i))%bool.

Definition face_in_range (o : ObjLoader.t) (face : Face.t) : bool :=
  (corner_in_range o face 0 && corner_in_range o face 1
   && corner_in_range o face 2)%bool.

Definition face_rev (face : Face.t) : Face.t :=
  Face.mk (arev (Face.vertexIndices face)) (arev (Face.textureIndices face))
    (arev (Face.normalIndices face)).

Definition triangle_rev (tr : Triangle.t) : Triangle.t :=
  Triangle.mk (arev (Triangle.vertices tr)) (arev (Triangle.normals tr))
    (arev (Triangle.textures tr)).

(* ================================================================= *)
(** ** The assembler as the specification words it (section 4.2) *)

Inductive AttributeKind := Position | NormalAttr | TextureCoordinate.

Inductive AssemblyResult :=
| Assembled (triangles : list Triangle.t)
| AddressingError (kind : AttributeKind) (faceIndex cornerIndex : nat).

(** Per corner: position, then normal, then texture coordinate; the first
    index outside its pool is the error. *)
Definition spec_corner_error (o : ObjLoader.t) (face : Face.t) (i : nat)
    : option AttributeKind :=
  if negb (index_ok (ObjLoader.vertices o) (aget (Face.vertexIndices face) i))
  then Some Position
  else if negb (index_ok (ObjLoader.normals o) (aget (Face.normalIndices face) i))
  then Some NormalAttr
  else if negb (index_ok (ObjLoader.textures o)
                  (aget (Face.textureIndices face) i))
  then Some TextureCoordinate
  else None.

Definition spec_face_error (o : ObjLoader.t) (face : Face.t)
    : option (AttributeKind * nat) :=
  match spec_corner_error o face 0 with
  | Some k => Some (k, 0%nat)
  | None =>
      match spec_corner_error o face 1 with
      | Some k => Some (k, 1%nat)
      | None =>
          match spec_corner_error o face 2 with
          | Some k => Some (k, 2%nat)
          | None => None
          end
      end
  end.

(** Fail-fast over the faces, in order; [n] is the index of the first face
    of [faces]. *)
Fixpoint spec_assemble_from (o : ObjLoader.t) (n : nat) (faces : list Face.t)
    (acc : list Triangle.t) : AssemblyResult :=
  match faces with
  | [] => Assembled acc
  | face :: rest =>
      match spec_face_error o face with
      | Some (k, c) => AddressingError k n c
      | None =>
          match assemble_face o face with
          | Some triangle => spec_assemble_from o (S n) rest (acc ++ [triangle])
          | None => AddressingError Position n 0
          end
      end
  end.

Definition spec_assemble (o : ObjLoader.t) : AssemblyResult :=
  spec_assemble_from o 0 (ObjLoader.faces o) [].

(** What a caller of [getTriangles] observes, read as a result of the
    specification's assembler: a returned vector is an assembled list; the
    function has no other way to report anything. *)
Definition reports (code : option (list Triangle.t)) (r : AssemblyResult) : Prop :=
  match code, r with
  | Some ts, Assembled ts' => ts = ts'
  | _, _ => False
  end.

(* ================================================================= *)
(** ** A float reader and sample inputs, to run the loader *)

(** The binary32 value nearest to [m / 10^k], with sign [neg]. *)
Definition binary32_of_decimal (neg : bool) (m : Z) (k : nat) : float :=
  match m with
  | Zpos p =>
      SFdiv 24 128 (S754_finite neg p 0)
        (S754_finite false (Z.to_pos (10 ^ Z.of_nat k)) 0)
  | _ => S754_zero neg
  end.

(** A reader for plain decimal literals (sign, digits, optional fraction);
    exponent parts are left unread.  Every theorem below holds for any
    reader; this one serves to evaluate the loader on sample files. *)
Definition read_decimal (s : string) : float * bool * string :=
  let (neg, b1) :=
    match s with
    | String "-"%char r => (true, r)
    | String "+"%char r => (false, r)
    | b => (false, b)
    end in
  let (ip, r1) := span isdigit b1 in
  let (fp, r2) :=
    match r1 with
    | String "."%char r => span isdigit r
    | _ => (EmptyString, r1)
    end in
  if (is_empty ip && is_empty fp)%bool then (S754_zero false, true, r2)
  else (binary32_of_decimal neg (digits_val 0 (ip ++ fp)) (String.length fp),
        false, r2).

(** A file system given by a table of paths and contents. *)
Fixpoint lookup_file (files : list (string * string)) (path : string)
    : option string :=
  match files with
  | [] => None
  | (p, content) :: rest =>
      if String.eqb p path then Some content else lookup_file rest path
  end.

Definition zero_Vertex : Vertex.t :=
  let o := S754_zero false in Vertex.mk o o o o o o o o o.

(** An environment over [files] in which every unassigned [int] of a [Face]
    holds [junk] and every unassigned float holds +0. *)
Definition sample_env (files : list (string * string)) (junk : Z) : Env :=
  mkEnv (lookup_file files)
    (fun _ => zero_Vertex)
    (fun _ => TextureCoords.mk (S754_zero false) (S754_zero false))
    (fun _ => Normal.mk (S754_zero false) (S754_zero false) (S754_zero false))
    (fun _ => Face.mk (junk, junk, junk) (junk, junk, junk) (junk, junk, junk))
    junk.

Definition nl : string := String "010"%char EmptyString.

(** The Face the [f] branch pushes for [line], from the unassigned [face]. *)
Definition parse_face_line (face : Face.t) (line : string) : Face.t :=
  fst (read_face face (snd (read_prefix line))).

(** A token: not empty, no white space. *)
Fixpoint no_space (s : string) : bool :=
  match s with
  | EmptyString => true
  | String c r => (negb (isspace c) && no_space r)%bool
  end.

Definition is_token (s : string) : bool := (negb (is_empty s) && no_space s)%bool.

Definition has_prefix (p : string) (line : string) : bool :=
  String.eqb (fst (read_prefix line)) p.

Definition count_prefix (p : string) (lines : list string) : nat :=
  length (filter (has_prefix p) lines).


(** The text of a file made of the given lines, each ended by '\n'. *)
Fixpoint unlines (ls : list string) : string :=
  match ls with
  | [] => EmptyString
  | l :: rest => l ++ nl ++ unlines rest
  end.

(** The loader built first in a process, over sample files. *)
Definition load_sample (files : list (string * string)) (junk : Z)
    (filename : string) (type : Z) : ObjLoader.t :=
  fst (ObjLoader_new read_decimal (sample_env files junk) filename type
         process_start).

Definition pool_lines : list string :=
  [ "v 0 0 0"; "v 1 0 0"; "v 0 1 0";
    "vt 0 0"; "vt 1 0"; "vt 0 1";
    "vn 0 0 1"; "vn 0 1 0"; "vn 1 0 0" ].

(** Three positions, and a face whose first corner names position 99. *)
Definition out_of_range_obj : string :=
  unlines (pool_lines ++ ["f 99/1/1 1/1/1 2/1/1"])%list.

(** The same face written in both windings. *)
Definition winding_obj : string :=
  unlines (pool_lines ++ ["f 1/1/1 2/2/2 3/3/3"; "f 3/3/3 2/2/2 1/1/1"])%list.

(** Lines with too few, or non-numeric, fields. *)
Definition malformed_obj : string := unlines ["v 1.0"; "vt abc 2"; "vn"].

(** A bare face over pools of three. *)
Definition bare_face_obj : string := unlines (pool_lines ++ ["f 1 2 3"])%list.

(** [st] with its global replaced. *)
Definition with_global (st : LoadState) (g : Globals) : LoadState :=
  mkLoadState (ls_vertices st) (ls_textures st) (ls_normals st) (ls_faces st)
    (ls_mtlFilename st) (ls_textureName st) g.

(** The global after a step that may have overwritten it. *)
Definition overwrite (r : option Globals) (g : Globals) : Globals :=
  match r with Some g' => g' | None => g end.

Definition amap {A B} (f : A -> B) (a : arr3 A) : arr3 B :=
  let '(a0, a1, a2) := a in (f a0, f a1, f a2).

(** Two loaders hold the same geometry and texture path. *)
Definition same_model (o1 o2 : ObjLoader.t) : Prop :=
  ObjLoader.vertices o1 = ObjLoader.vertices o2 /\
  ObjLoader.textures o1 = ObjLoader.textures o2 /\
  ObjLoader.normals o1 = ObjLoader.normals o2 /\
  ObjLoader.faces o1 = ObjLoader.faces o2 /\
  ObjLoader.textureName o1 = ObjLoader.textureName o2 /\
  getTriangles o1 = getTriangles o2.

(** Sample files: a textured model (its material file names two textures),
    a model with no [mtllib], one whose material file is missing, one whose
    material file has no [map_Kd], and a model at a bare filename. *)
Definition texture_files : list (string * string) :=
  [ ("assets/cube.obj",
     unlines (["# cube"; "mtllib m.mtl"] ++ pool_lines ++ ["f 1/1/1 2/2/2 3/3/3"])%list);
    ("assets/m.mtl",
     unlines ["newmtl wood"; "Kd 1 1 1"; "map_Kd wood.png"; "map_Kd other.png"]);
    ("assets/plain.obj", unlines (pool_lines ++ ["f 1/1/1 2/2/2 3/3/3"])%list);
    ("assets/missing.obj", unlines ("mtllib nowhere.mtl" :: pool_lines));
    ("assets/flat.obj", unlines ("mtllib flat.mtl" :: pool_lines));
    ("assets/flat.mtl", unlines ["newmtl flat"; "Kd 1 0 0"]);
    ("cube.obj", unlines ["mtllib m.mtl"]);
    ("cube.obj/m.mtl", unlines ["map_Kd wood.png"]) ].


(* ================================================================= *)
(** ** The remaining getters of ObjLoader *)






(** A run of decimal digits, not empty. *)
Fixpoint all_digits (s : string) : bool :=
  match s with
  | EmptyString => true
  | String c r => (isdigit c && all_digits r)%bool
  end.

Definition is_numeral (s : string) : bool :=
  (negb (is_empty s) && all_digits s)%bool.

(** The text is empty or starts with a character that is not a digit. *)
Definition head_not_digit (rest : string) : bool :=
  match rest with
  | EmptyString => true
  | String c _ => negb (isdigit c)
  end.

(** [face] with the three indices of corner [i] replaced. *)
Definition set_corner (face : Face.t) (i : nat) (p t n : Z) : Face.t :=
  Face.mk (aset (Face.vertexIndices face) i p)
    (aset (Face.textureIndices face) i t)
    (aset (Face.normalIndices face) i n).

(** The 0-based index stored for a written 1-based numeral. *)
Definition index_of_numeral (s : string) : Z := digits_val 0 s - 1.

(* ================================================================= *)
(** ** main.cpp: LoadShaderAsString *)

(** Lines 137-153: the lines of the file, each followed by '\n'; the empty
    string when the file cannot be opened. *)
Definition LoadShaderAsString (env : Env) (filename : string) : string :=
  match fs env filename with
  | Some content =>
      fold_left (fun result line => result ++ (line ++ nl)) (getlines content)
        EmptyString
  | None => EmptyString
  end.

(** The text is not empty and its last character is not '\n'. *)
Fixpoint lacks_final_newline (s : string) : bool :=
  match s with
  | EmptyString => false
  | String c EmptyString => negb (Ascii.eqb c "010"%char)
  | String _ r => lacks_final_newline r
  end.

(* ================================================================= *)
(** ** main.cpp: the game state and its loop *)

(** The globals of main.cpp and globals.hpp the game logic reads and writes
    ([g.currentDinoHeight] and [g.cactusPosition] among them).
    [gPolygonLine] stands for [gPolygonMode == GL_LINE]. *)
Record Game := mkGame {
  gQuit : bool;
  gPolygonLine : bool;
  gDebug : bool;
  tick : Z;
  dayTick : Z;
  isJumping : bool;
  jumpingUp : bool;
  gameOver : bool;
  cactusSpeed : Z;
  jumpingSpeed : Z;
  cactusStart : Z;
  colorOffset : Z;
  isDaytime : bool;
  currentDinoHeight : Z;
  cactusPosition : Z
}.

(** The initialisers of lines 30-101 and of globals.hpp. *)
Definition initial_game : Game :=
  mkGame false false false 0 0 false true false 5 4 400 0 true 0 400.

(** What [Input] reads from SDL: whether the event queue holds an SDL_QUIT
    event or an ESC key-down event, and the keyboard state.  Mouse motion
    and the W, A, S, D keys reach only [gCamera], which is outside these
    sources. *)
Record Keys := mkKeys {
  quit_event : bool;
  key_R : bool;
  key_SPACE : bool;
  key_0 : bool;
  key_1 : bool;
  key_2 : bool;
  key_3 : bool;
  key_4 : bool;
  key_T : bool;
  key_TAB : bool
}.

Definition no_keys : Keys :=
  mkKeys false false false false false false false false false false.

Definition set_colorOffset (c : Z) (s : Game) : Game :=
  mkGame (gQuit s) (gPolygonLine s) (gDebug s) (tick s) (dayTick s)
    (isJumping s) (jumpingUp s) (gameOver s) (cactusSpeed s) (jumpingSpeed s)
    (cactusStart s) c (isDaytime s) (currentDinoHeight s) (cactusPosition s).

(** [Input] (lines 569-676), on the game globals: the event loop, then the
    tests of the keyboard state in the order of the source. *)
Definition on_quit (k : Keys) (s : Game) : Game :=
  if quit_event k then
    mkGame true (gPolygonLine s) (gDebug s) (tick s) (dayTick s)
      (isJumping s) (jumpingUp s) (gameOver s) (cactusSpeed s)
      (jumpingSpeed s) (cactusStart s) (colorOffset s) (isDaytime s)
      (currentDinoHeight s) (cactusPosition s)
  else s.

Definition on_R (k : Keys) (s : Game) : Game :=
  if key_R k then
    mkGame (gQuit s) (gPolygonLine s) (gDebug s) 0 0
      false (jumpingUp s) false 5 4
      (cactusStart s) (colorOffset s) true 0 400
  else s.

Definition on_SPACE (k : Keys) (s : Game) : Game :=
  if (key_SPACE k && negb (isJumping s))%bool then
    mkGame (gQuit s) (gPolygonLine s) (gDebug s) (tick s) (dayTick s)
      true (jumpingUp s) (gameOver s) (cactusSpeed s) (jumpingSpeed s)
      (cactusStart s) (colorOffset s) (isDaytime s) 1 (cactusPosition s)
  else s.

Definition on_digits (k : Keys) (s : Game) : Game :=
  let s := if key_0 k then set_colorOffset 0 s else s in
  let s := if key_1 k then set_colorOffset 1 s else s in
  let s := if key_2 k then set_colorOffset 2 s else s in
  let s := if key_3 k then set_colorOffset 3 s else s in
  let s := if key_4 k then set_colorOffset 4 s else s in
  s.

Definition on_T (k : Keys) (s : Game) : Game :=
  if key_T k then
    mkGame (gQuit s) (gPolygonLine s) (negb (gDebug s)) (tick s)
      (dayTick s) (isJumping s) (jumpingUp s) (gameOver s)
      (cactusSpeed s) (jumpingSpeed s) (cactusStart s) (colorOffset s)
      (isDaytime s) (currentDinoHeight s) (cactusPosition s)
  else s.

Definition on_TAB (k : Keys) (s : Game) : Game :=
  if (key_TAB k && gDebug s)%bool then
    mkGame (gQuit s) (negb (gPolygonLine s)) (gDebug s) (tick s)
      (dayTick s) (isJumping s) (jumpingUp s) (gameOver s)
      (cactusSpeed s) (jumpingSpeed s) (cactusStart s) (colorOffset s)
      (isDaytime s) (currentDinoHeight s) (cactusPosition s)
  else s.

Definition Input (k : Keys) (s : Game) : Game :=
  on_TAB k (on_T k (on_digits k (on_SPACE k (on_R k (on_quit k s))))).

(** Lines 719-728: the score and the day-night ticker. *)
Definition advance_clock (s : Game) : Game :=
  let tick' := wrap32 (tick s + 1) in
  let dayTick' := wrap32 (dayTick s + 1) in
  if dayTick' =? 1000 then
    mkGame (gQuit s) (gPolygonLine s) (gDebug s) tick' 0
      (isJumping s) (jumpingUp s) (gameOver s)
      (wrap32 (cactusSpeed s + 2)) (wrap32 (jumpingSpeed s + 2))
      (cactusStart s) (colorOffset s) (negb (isDaytime s))
      (currentDinoHeight s) (cactusPosition s)
  else
    mkGame (gQuit s) (gPolygonLine s) (gDebug s) tick' dayTick'
      (isJumping s) (jumpingUp s) (gameOver s) (cactusSpeed s) (jumpingSpeed s)
      (cactusStart s) (colorOffset s) (isDaytime s)
      (currentDinoHeight s) (cactusPosition s).

(** Lines 730-737: the cactus scrolls left and, far enough out, restarts
    with a position and a speed drawn from [rand()]; [r1] and [r2] are the
    results of the two calls.  [None]: the remainder by a zero speed, which
    the language leaves undefined. *)
Definition move_cactus (r1 r2 : Z) (s : Game) : option Game :=
  let position := wrap32 (cactusPosition s - cactusSpeed s) in
  if position <=? wrap32 (- wrap32 (cactusStart s * 2)) then
    if cactusSpeed s =? 0 then None
    else
      let start' := wrap32 (Z.rem r1 500 + 400) in
      let speed' := wrap32 (Z.rem r2 (cactusSpeed s) + 6) in
      Some (mkGame (gQuit s) (gPolygonLine s) (gDebug s) (tick s) (dayTick s)
              (isJumping s) (jumpingUp s) (gameOver s) speed' (jumpingSpeed s)
              start' (colorOffset s) (isDaytime s)
              (currentDinoHeight s) start')
  else
    Some (mkGame (gQuit s) (gPolygonLine s) (gDebug s) (tick s) (dayTick s)
            (isJumping s) (jumpingUp s) (gameOver s) (cactusSpeed s)
            (jumpingSpeed s) (cactusStart s) (colorOffset s) (isDaytime s)
            (currentDinoHeight s) position).

(** Lines 739-755: the jump. *)
Definition jump (s : Game) : Game :=
  if isJumping s then
    if jumpingUp s then
      let height := wrap32 (currentDinoHeight s + jumpingSpeed s) in
      mkGame (gQuit s) (gPolygonLine s) (gDebug s) (tick s) (dayTick s)
        (isJumping s) (if 152 <=? height then false else jumpingUp s)
        (gameOver s) (cactusSpeed s) (jumpingSpeed s) (cactusStart s)
        (colorOffset s) (isDaytime s) height (cactusPosition s)
    else
      let height := wrap32 (currentDinoHeight s - jumpingSpeed s) in
      if height <=? 0 then
        mkGame (gQuit s) (gPolygonLine s) (gDebug s) (tick s) (dayTick s)
          false true (gameOver s) (cactusSpeed s) (jumpingSpeed s)
          (cactusStart s) (colorOffset s) (isDaytime s) height (cactusPosition s)
      else
        mkGame (gQuit s) (gPolygonLine s) (gDebug s) (tick s) (dayTick s)
          (isJumping s) (jumpingUp s) (gameOver s) (cactusSpeed s)
          (jumpingSpeed s) (cactusStart s) (colorOffset s) (isDaytime s)
          height (cactusPosition s)
  else s.

(** Lines 756-760: the collision test. *)
Definition collide (s : Game) : Game :=
  if ((currentDinoHeight s <? 75) && (cactusPosition s <=? -100)
      && (-150 <=? cactusPosition s) && negb (gDebug s))%bool then
    mkGame (gQuit s) (gPolygonLine s) (gDebug s) (tick s) (dayTick s)
      (isJumping s) (jumpingUp s) true (cactusSpeed s) (jumpingSpeed s)
      (cactusStart s) (colorOffset s) (isDaytime s)
      (currentDinoHeight s) (cactusPosition s)
  else s.

(** The game logic of one turn of the main loop (lines 719-760). *)
Definition game_update (r1 r2 : Z) (s : Game) : option Game :=
  match move_cactus r1 r2 (advance_clock s) with
  | None => None
  | Some s' => Some (collide (jump s'))
  end.

(** One turn of [while(!gQuit)] in [MainLoop], on the game globals: the
    rendering calls between [Input] and the game logic do not write them. *)
Definition MainLoop_turn (k : Keys) (r1 r2 : Z) (s : Game) : option Game :=
  let s := Input k s in
  if gameOver s then Some s else game_update r1 r2 s.

(** The loop, for the inputs of successive turns; it leaves as soon as
    [gQuit] is set. *)
Fixpoint MainLoop (inputs : list (Keys * Z * Z)) (s : Game) : option Game :=
  match inputs with
  | [] => Some s
  | (k, r1, r2) :: rest =>
      if gQuit s then Some s
      else match MainLoop_turn k r1 r2 s with
           | None => None
           | Some s' => MainLoop rest s'
           end
  end.

(* ================================================================= *)
(** ** main.cpp: GenerateModelBufferData and VertexSpecification *)

(** [float] arithmetic: binary32, round to nearest even. *)
Definition fadd (a b : float) : float := SFadd 24 128 a b.
Definition fsub (a b : float) : float := SFsub 24 128 a b.
Definition fmul (a b : float) : float := SFmul 24 128 a b.

(** The conversion of an [int] operand to [float]. *)
Definition float_of_int (n : Z) : float := binary_normalize 24 128 n 0 false.

(** The literals [0.01f], [0.004f] and [0.003906f]. *)
Definition lit_0_01f : float := binary32_of_decimal false 1 2.
Definition lit_0_004f : float := binary32_of_decimal false 4 3.
Definition lit_0_003906f : float := binary32_of_decimal false 3906 6.

(** The four [int] locals of lines 332-349. *)
Record Modifiers := mkModifiers {
  xModifier : Z;
  yModifier : Z;
  uModifier : Z;
  colorModifier : Z
}.

Definition modifiers_of (s : Game) (modelType : Z) : Modifiers :=
  let m := mkModifiers 0 0 0 0 in
  let m := if modelType =? 1 then
             mkModifiers (xModifier m) (currentDinoHeight s) (uModifier m)
               (colorOffset s)
           else m in
  let m := if modelType =? 2 then
             mkModifiers (cactusPosition s) (yModifier m) (uModifier m)
               (colorOffset s)
           else m in
  let m := if modelType =? 3 then
             mkModifiers (xModifier m) (yModifier m) (Z.rem (tick s) 125)
               (colorModifier m)
           else m in
  m.

(** The eight floats pushed for corner [i] of a triangle (lines 354-367). *)
Definition corner_floats (m : Modifiers) (triangle : Triangle.t) (i : nat)
    : list float :=
  let vertex := aget (Triangle.vertices triangle) i in
  let normal := aget (Triangle.normals triangle) i in
  let texture := aget (Triangle.textures triangle) i in
  [ fadd (Vertex.x vertex) (fmul (float_of_int (xModifier m)) lit_0_01f);
    fadd (Vertex.y vertex) (fmul (float_of_int (yModifier m)) lit_0_01f);
    Vertex.z vertex;
    Normal.nx normal;
    Normal.ny normal;
    Normal.nz normal;
    fadd (fsub (TextureCoords.u texture)
            (fmul (float_of_int (uModifier m)) lit_0_004f))
      (fmul (float_of_int (colorModifier m)) lit_0_003906f);
    TextureCoords.v texture ].

Definition triangle_floats (m : Modifiers) (triangle : Triangle.t) : list float :=
  (corner_floats m triangle 0 ++ corner_floats m triangle 1
   ++ corner_floats m triangle 2)%list.

(** The loop over the triangles of one mesh, pushing onto [data]. *)
Fixpoint push_mesh (m : Modifiers) (mesh : list Triangle.t) (data : list float)
    : list float :=
  match mesh with
  | [] => data
  | triangle :: rest => push_mesh m rest (data ++ triangle_floats m triangle)%list
  end.

(** The loop over the loaders (lines 328-369); [None] when a call of
    [getTriangles] has no defined result. *)
Fixpoint push_loaders (s : Game) (loaders : list ObjLoader.t) (data : list float)
    : option (list float) :=
  match loaders with
  | [] => Some data
  | loader :: rest =>
      match getTriangles loader with
      | None => None
      | Some mesh =>
          push_loaders s rest
            (push_mesh (modifiers_of s (ObjLoader.modelType loader)) mesh data)
      end
  end.

(** What [GenerateModelBufferData] hands on: the floats given to
    [glBufferData] with their size in bytes ([sizeof(GL_FLOAT)] is the size
    of the [int] constant GL_FLOAT, 4), and the count stored in
    [gFloorTriangles], which [Draw] passes to [glDrawArrays]. *)
Record BufferData := mkBufferData {
  vertexDataFloor : list float;
  bufferBytes : nat;
  gFloorTriangles : nat
}.

Definition GenerateModelBufferData (s : Game) (loaders : list ObjLoader.t)
    : option BufferData :=
  match push_loaders s loaders [] with
  | None => None
  | Some data => Some (mkBufferData data (length data * 4) (length data))
  end.

Definition backgroundPath (s : Game) : string :=
  if isDaytime s then "./common/objects/bg.obj"
  else "./common/objects/bg_night.obj".

Definition dinoName (s : Game) : string :=
  if Z.rem (tick s) 30 <? 15 then "./common/objects/dino2.obj"
  else "./common/objects/dino.obj".

(** What the loading part of [VertexSpecification] (lines 398-418) produces:
    the name given to [gTexture.LoadTexture], the buffer data, and the
    global texture name left behind. *)
Record Frame := mkFrame {
  loadedTexture : string;
  frameLoaders : list ObjLoader.t;
  frameBuffer : option BufferData;
  frameGlobals : Globals
}.

Definition VertexSpecification (reader : string -> float * bool * string)
    (env : Env) (s : Game) (g : Globals) : Frame :=
  let (loader1, g1) := ObjLoader_new reader env (backgroundPath s) 3 g in
  let texture := getTextureName loader1 in
  let (loader2, g2) := ObjLoader_new reader env (dinoName s) 1 g1 in
  let (loader3, g3) :=
    ObjLoader_new reader env "./common/objects/cactus.obj" 2 g2 in
  let loaders := [loader1; loader2; loader3] in
  mkFrame texture loaders (GenerateModelBufferData s loaders) g3.

(** The text is empty or starts with white space. *)
Definition head_is_space (tail : string) : bool :=
  match tail with
  | EmptyString => true
  | String c _ => isspace c
  end.

(** Only white space. *)
Fixpoint all_space (s : string) : bool :=
  match s with
  | EmptyString => true
  | String c r => (isspace c && all_space r)%bool
  end.

(** The number of faces of a list of loaders. *)
Definition total_faces (loaders : list ObjLoader.t) : nat :=
  list_sum (map (fun o => length (ObjLoader.faces o)) loaders).

(** Every index of every face of a loader is inside its pool. *)
Definition loader_in_range (o : ObjLoader.t) : bool :=
  forallb (face_in_range o) (ObjLoader.faces o).

(** The floats of a mesh, triangle after triangle. *)
Definition mesh_floats (m : Modifiers) (mesh : list Triangle.t) : list float :=
  concat (map (triangle_floats m) mesh).

(** The fields of the game state that [GenerateModelBufferData] reads. *)
Definition same_modifiers (s s' : Game) : Prop :=
  currentDinoHeight s = currentDinoHeight s' /\
  cactusPosition s = cactusPosition s' /\
  colorOffset s = colorOffset s' /\
  Z.rem (tick s) 125 = Z.rem (tick s') 125.

(** The three models of a frame, with small meshes; the background names no
    material, the cactus does. *)
Definition game_files : list (string * string) :=
  [ ("./common/objects/bg.obj",
     unlines (pool_lines ++ ["f 1/1/1 2/2/2 3/3/3"; "f 3/3/3 2/2/2 1/1/1"])%list);
    ("./common/objects/dino.obj",
     unlines (pool_lines ++ ["f 1/1/1 2/2/2 3/3/3"])%list);
    ("./common/objects/dino2.obj",
     unlines (pool_lines ++ ["f 1/2/3 2/3/1 3/1/2"])%list);
    ("./common/objects/cactus.obj",
     unlines (["mtllib cactus.mtl"] ++ pool_lines ++ ["f 1/1/1 2/2/2 3/3/3"])%list);
    ("./common/objects/cactus.mtl", unlines ["newmtl cactus"; "map_Kd cactus.png"]) ].

(** The game globals other than the quit flag, the debug and polygon modes
    and the colour offset. *)
Definition game_core (s : Game)
    : Z * Z * bool * bool * bool * Z * Z * Z * bool * Z * Z :=
  (tick s, dayTick s, isJumping s, jumpingUp s, gameOver s, cactusSpeed s,
   jumpingSpeed s, cactusStart s, isDaytime s, currentDinoHeight s,
   cactusPosition s).

(** Bounds the game loop keeps. *)
Definition game_inv (s : Game) : Prop :=
  0 <= dayTick s < 1000 /\
  5 <= cactusSpeed s /\ 4 <= jumpingSpeed s /\
  400 <= cactusStart s <= 899 /\
  - (2 * cactusStart s) < cactusPosition s <= cactusStart s /\
  1 - jumpingSpeed s <= currentDinoHeight s <= 151 + jumpingSpeed s /\
  (isJumping s = true -> jumpingUp s = true -> currentDinoHeight s <= 151) /\
  (isJumping s = true -> jumpingUp s = false -> 1 <= currentDinoHeight s).

(** Every [rand()] result of a run is non-negative. *)
Definition rand_ok (inputs : list (Keys * Z * Z)) : Prop :=
  Forall (fun '(_, r1, r2) => 0 <= r1 /\ 0 <= r2) inputs.

(** A run from the initial state: a jump, held until the dino has turned
    downwards, then a restart. *)
Definition space_key : Keys :=
  mkKeys false false true false false false false false false false.

Definition restart_key : Keys :=
  mkKeys false true false false false false false false false false.

Definition jump_then_restart : list (Keys * Z * Z) :=
  ((space_key, 0, 0) :: repeat (no_keys, 0, 0) 37 ++ [(restart_key, 0, 0)])%list.

(** No key is down and no quit event is queued in any turn. *)
Definition idle (inputs : list (Keys * Z * Z)) : Prop :=
  Forall (fun '(k, _, _) => k = no_keys) inputs.
(* ================================================================= *)
(** * Properties of getTriangles *)

Local Open Scope list_scope.

Section Assembly.

Variable o : ObjLoader.t.

Lemma at_index_ok {A} (v : list A) (i : Z) :
  index_ok v i = true <-> exists a, at_index v i = Some a.
Proof.
  unfold index_ok, at_index. split.
  - intros H. apply andb_true_iff in H as [H0 H1].
    apply Z.leb_le in H0. apply Z.ltb_lt in H1.
    destruct (i <? 0) eqn:E; [apply Z.ltb_lt in E; lia|].
    destruct (nth_error v (Z.to_nat i)) eqn:N; [eauto|].
    apply nth_error_None in N. lia.
  - intros [a H]. destruct (i <? 0) eqn:E; [discriminate|].
    apply Z.ltb_ge in E.
    assert (L : (Z.to_nat i < length v)%nat)
      by (apply nth_error_Some; congruence).
    apply andb_true_iff. split; [apply Z.leb_le | apply Z.ltb_lt]; lia.
Qed.

Lemma at_index_bad {A} (v : list A) (i : Z) :
  index_ok v i = false -> at_index v i = None.
Proof.
  intros H. destruct (at_index v i) eqn:E; [|reflexivity].
  assert (index_ok v i = true) by (apply at_index_ok; eauto). congruence.
Qed.

Lemma resolve_corner_ok (face : Face.t) (i : nat) :
  corner_in_range o face i = true <->
  exists c, resolve_corner o face i = Some c.
Proof.
  unfold corner_in_range, resolve_corner. split.
  - intros H. apply andb_true_iff in H as [H Ht].
    apply andb_true_iff in H as [Hv Hn].
    apply at_index_ok in Hv as [a ->], Hn as [b ->], Ht as [c ->]. eauto.
  - intros [c H].
    destruct (at_index (ObjLoader.vertices o) _) eqn:Ev; [|discriminate].
    destruct (at_index (ObjLoader.normals o) _) eqn:En; [|discriminate].
    destruct (at_index (ObjLoader.textures o) _) eqn:Et; [|discriminate].
    rewrite !andb_true_iff. repeat split; apply at_index_ok; eauto.
Qed.

Lemma assemble_face_ok (face : Face.t) :
  face_in_range o face = true <-> exists tr, assemble_face o face = Some tr.
Proof.
  unfold face_in_range, assemble_face. split.
  - intros H. apply andb_true_iff in H as [H H2].
    apply andb_true_iff in H as [H0 H1].
    apply resolve_corner_ok in H0 as [[[v0 n0] t0] ->].
    apply resolve_corner_ok in H1 as [[[v1 n1] t1] ->].
    apply resolve_corner_ok in H2 as [[[v2 n2] t2] ->]. eauto.
  - intros [tr H].
    destruct (resolve_corner o face 0) as [[[v0 n0] t0]|] eqn:E0; [|discriminate].
    destruct (resolve_corner o face 1) as [[[v1 n1] t1]|] eqn:E1; [|discriminate].
    destruct (resolve_corner o face 2) as [[[v2 n2] t2]|] eqn:E2; [|discriminate].
    rewrite !andb_true_iff. repeat split; apply resolve_corner_ok; eauto.
Qed.

Lemma assemble_face_bad (face : Face.t) :
  face_in_range o face = false -> assemble_face o face = None.
Proof.
  intros H. destruct (assemble_face o face) eqn:E; [|reflexivity].
  assert (face_in_range o face = true) by (apply assemble_face_ok; eauto).
  congruence.
Qed.

(** The loop appends to the accumulator one triangle per face, in the
    order of the faces. *)
Lemma getTriangles_loop_Some (faces : list Face.t) :
  forall acc r,
    getTriangles_loop o faces acc = Some r ->
    exists ts, r = acc ++ ts /\
               Forall2 (fun f tr => assemble_face o f = Some tr) faces ts.
Proof.
  induction faces as [|f faces IH]; simpl; intros acc r H.
  - injection H as <-. exists []. rewrite app_nil_r. split; constructor.
  - destruct (assemble_face o f) as [tr|] eqn:E; [|discriminate].
    apply IH in H as (ts & -> & F).
    exists (tr :: ts). rewrite <- app_assoc. split; [reflexivity|].
    constructor; assumption.
Qed.

Lemma getTriangles_loop_in_range (faces : list Face.t) :
  forall acc,
    forallb (face_in_range o) faces = true ->
    exists r, getTriangles_loop o faces acc = Some r.
Proof.
  induction faces as [|f faces IH]; simpl; intros acc H; [eauto|].
  apply andb_true_iff in H as [Hf H].
  apply assemble_face_ok in Hf as [tr ->]. apply IH, H.
Qed.

Lemma getTriangles_loop_out_of_range (faces : list Face.t) :
  forall acc,
    forallb (face_in_range o) faces = false ->
    getTriangles_loop o faces acc = None.
Proof.
  induction faces as [|f faces IH]; simpl; intros acc H; [discriminate|].
  destruct (face_in_range o f) eqn:Ef; simpl in H.
  - apply assemble_face_ok in Ef as [tr ->]. apply IH, H.
  - rewrite assemble_face_bad by assumption. reflexivity.
Qed.

Lemma getTriangles_Some (ts : list Triangle.t) :
  getTriangles o = Some ts ->
  Forall2 (fun f tr => assemble_face o f = Some tr) (ObjLoader.faces o) ts.
Proof.
  intros H. apply getTriangles_loop_Some in H as (ts' & -> & F). exact F.
Qed.

Lemma resolve_corner_fields (face : Face.t) (i : nat) v n t :
  resolve_corner o face i = Some (v, n, t) ->
  at_index (ObjLoader.vertices o) (aget (Face.vertexIndices face) i) = Some v /\
  at_index (ObjLoader.normals o) (aget (Face.normalIndices face) i) = Some n /\
  at_index (ObjLoader.textures o) (aget (Face.textureIndices face) i) = Some t.
Proof.
  unfold resolve_corner. intros H.
  destruct (at_index (ObjLoader.vertices o) _); [|discriminate].
  destruct (at_index (ObjLoader.normals o) _); [|discriminate].
  destruct (at_index (ObjLoader.textures o) _); [|discriminate].
  injection H as -> -> ->. auto.
Qed.

(** Corner [i] of the triangle is resolved from corner [i] of the face. *)
Lemma assemble_face_corner (face : Face.t) (tr : Triangle.t) (i : nat) :
  assemble_face o face = Some tr -> (i < 3)%nat ->
  resolve_corner o face i =
    Some (aget (Triangle.vertices tr) i, aget (Triangle.normals tr) i,
          aget (Triangle.textures tr) i).
Proof.
  unfold assemble_face. intros H Hi.
  destruct (resolve_corner o face 0) as [[[v0 n0] t0]|] eqn:E0; [|discriminate].
  destruct (resolve_corner o face 1) as [[[v1 n1] t1]|] eqn:E1; [|discriminate].
  destruct (resolve_corner o face 2) as [[[v2 n2] t2]|] eqn:E2; [|discriminate].
  injection H as <-.
  destruct i as [|[|[|i]]]; simpl; solve [assumption | lia].
Qed.

Lemma assemble_face_rev (face : Face.t) :
  assemble_face o (face_rev face) =
  option_map triangle_rev (assemble_face o face).
Proof.
  destruct face as [[[p0 p1] p2] [[t0 t1] t2] [[n0 n1] n2]].
  unfold assemble_face, resolve_corner, face_rev. simpl.
  destruct (at_index (ObjLoader.vertices o) p0),
           (at_index (ObjLoader.vertices o) p1),
           (at_index (ObjLoader.vertices o) p2),
           (at_index (ObjLoader.normals o) n0),
           (at_index (ObjLoader.normals o) n1),
           (at_index (ObjLoader.normals o) n2),
           (at_index (ObjLoader.textures o) t0),
           (at_index (ObjLoader.textures o) t1),
           (at_index (ObjLoader.textures o) t2); reflexivity.
Qed.

End Assembly.

(** C1 (as amended).  [getTriangles] does no range validation and has no
    error result.  When every 0-based index of every face lies inside its
    pool it returns exactly one triangle per face; when some index lies
    outside, the vector access is unchecked and the call has no defined
    result.  In neither case does it report an AddressingError. *)
Theorem C1_getTriangles_unchecked (o : ObjLoader.t) :
  match getTriangles o with
  | Some ts =>
      forallb (face_in_range o) (ObjLoader.faces o) = true /\
      length ts = length (ObjLoader.faces o)
  | None => forallb (face_in_range o) (ObjLoader.faces o) = false
  end /\
  forall kind faceIndex cornerIndex,
    ~ reports (getTriangles o) (AddressingError kind faceIndex cornerIndex).
Proof.
  split.
  - destruct (forallb (face_in_range o) (ObjLoader.faces o)) eqn:R.
    + destruct (getTriangles_loop_in_range o _ [] R) as [ts H].
      unfold getTriangles. rewrite H. split; [reflexivity|].
      apply getTriangles_Some in H. symmetry. eapply Forall2_length, H.
    + unfold getTriangles.
      rewrite getTriangles_loop_out_of_range by assumption. reflexivity.
  - intros kind f c. unfold reports. destruct (getTriangles o); tauto.
Qed.

(** C1 fails as stated: position index 99 against a pool of three.  The
    specification's assembler answers AddressingError Position for face 0,
    corner 0; [getTriangles] reports nothing of the kind. *)
Lemma C1_counterexample :
  let o := load_sample [("bad.obj", out_of_range_obj)] 0 "bad.obj" 2 in
  length (ObjLoader.vertices o) = 3%nat /\
  map (fun f => aget (Face.vertexIndices f) 0) (ObjLoader.faces o) = [98] /\
  spec_assemble o = AddressingError Position 0 0 /\
  getTriangles o = None /\
  ~ reports (getTriangles o) (spec_assemble o).
Proof.
  vm_compute. repeat split; try reflexivity. tauto.
Qed.

(** C8.  With every index in range, [getTriangles] returns one triangle per
    face, the k-th triangle built from the k-th face, and corner i of a
    triangle holds the pool entries named by corner i of its face.  A face
    with its corners written in reverse order assembles to the reversed
    triangle; reversing only the position indices reverses the triangle's
    positions.  The parser keeps the written order: [f 3 2 1] yields the
    reversed position indices of [f 1 2 3]. *)
Theorem C8_order_preserved (o : ObjLoader.t) :
  forallb (face_in_range o) (ObjLoader.faces o) = true ->
  (exists ts,
     getTriangles o = Some ts /\
     length ts = length (ObjLoader.faces o) /\
     forall k face,
       nth_error (ObjLoader.faces o) k = Some face ->
       exists tr,
         nth_error ts k = Some tr /\
         forall i, (i < 3)%nat ->
           at_index (ObjLoader.vertices o) (aget (Face.vertexIndices face) i)
             = Some (aget (Triangle.vertices tr) i) /\
           at_index (ObjLoader.normals o) (aget (Face.normalIndices face) i)
             = Some (aget (Triangle.normals tr) i) /\
           at_index (ObjLoader.textures o) (aget (Face.textureIndices face) i)
             = Some (aget (Triangle.textures tr) i)) /\
  (forall face tr,
     assemble_face o face = Some tr ->
     assemble_face o (face_rev face) = Some (triangle_rev tr)) /\
  (forall face face' tr tr',
     assemble_face o face = Some tr ->
     assemble_face o face' = Some tr' ->
     Face.vertexIndices face' = arev (Face.vertexIndices face) ->
     Triangle.vertices tr' = arev (Triangle.vertices tr)) /\
  (forall junk,
     Face.vertexIndices (parse_face_line junk "f 3 2 1") =
       arev (Face.vertexIndices (parse_face_line junk "f 1 2 3")) /\
     parse_face_line junk "f 3/3/3 2/2/2 1/1/1" =
       face_rev (parse_face_line junk "f 1/1/1 2/2/2 3/3/3")).
Proof.
  intros R. repeat split.
  - destruct (getTriangles_loop_in_range o _ [] R) as [ts H].
    exists ts. split; [exact H|].
    apply getTriangles_Some in H. split.
    + symmetry. eapply Forall2_length, H.
    + revert H. generalize (ObjLoader.faces o) as faces.
      intros faces F. induction F as [|f tr faces ts Hf F IH]; intros k face Hk.
      * destruct k; discriminate.
      * destruct k as [|k]; simpl in Hk.
        -- injection Hk as <-. exists tr. split; [reflexivity|].
           intros i Hi. apply resolve_corner_fields.
           apply assemble_face_corner; assumption.
        -- apply IH in Hk as (tr' & Hn & Hc). exists tr'. split; assumption.
  - intros face tr H. rewrite assemble_face_rev, H. reflexivity.
  - intros face face' tr tr' H H' E.
    pose proof (assemble_face_corner o _ _ 0 H ltac:(lia)) as A0.
    pose proof (assemble_face_corner o _ _ 1 H ltac:(lia)) as A1.
    pose proof (assemble_face_corner o _ _ 2 H ltac:(lia)) as A2.
    pose proof (assemble_face_corner o _ _ 0 H' ltac:(lia)) as B0.
    pose proof (assemble_face_corner o _ _ 1 H' ltac:(lia)) as B1.
    pose proof (assemble_face_corner o _ _ 2 H' ltac:(lia)) as B2.
    apply resolve_corner_fields in A0 as [A0 _], A1 as [A1 _], A2 as [A2 _].
    apply resolve_corner_fields in B0 as [B0 _], B1 as [B1 _], B2 as [B2 _].
    rewrite E in B0, B1, B2.
    destruct (Face.vertexIndices face) as [[p0 p1] p2].
    destruct (Triangle.vertices tr) as [[a0 a1] a2].
    destruct (Triangle.vertices tr') as [[b0 b1] b2].
    simpl in *. congruence.
  - destruct junk as [[[p0 p1] p2] [[t0 t1] t2] [[n0 n1] n2]]. reflexivity.
  - destruct junk as [[[p0 p1] p2] [[t0 t1] t2] [[n0 n1] n2]]. reflexivity.
Qed.

Lemma C8_witness :
  let o := load_sample [("w.obj", winding_obj)] 0 "w.obj" 1 in
  forallb (face_in_range o) (ObjLoader.faces o) = true /\
  exists ts, getTriangles o = Some ts /\ length ts = 2%nat.
Proof.
  intros o.
  assert (R : forallb (face_in_range o) (ObjLoader.faces o) = true)
    by (vm_compute; reflexivity).
  split; [exact R|].
  destruct (C8_order_preserved o R) as [(ts & H & L & _) _].
  exists ts. split; [exact H|]. rewrite L. vm_compute. reflexivity.
Defined.

(* ================================================================= *)
(** * Properties of load *)

Section LoadProperties.

Variable reader : string -> float * bool * string.
Variable env : Env.

Lemma load_line_lengths (d : string) (n : nat) (line : string) (st : LoadState) :
  let st' := load_line reader env d n line st in
  let bump (p : string) := if has_prefix p line then 1%nat else 0%nat in
  length (ls_vertices st') = (length (ls_vertices st) + bump "v")%nat /\
  length (ls_textures st') = (length (ls_textures st) + bump "vt")%nat /\
  length (ls_normals st') = (length (ls_normals st) + bump "vn")%nat /\
  length (ls_faces st') = (length (ls_faces st) + bump "f")%nat.
Proof.
  unfold load_line, has_prefix. destruct (read_prefix line) as [p iss].
  simpl fst.
  destruct (String.eqb_spec p "v") as [->|_];
    [simpl; rewrite length_app; simpl; lia|].
  destruct (String.eqb_spec p "vt") as [->|_];
    [simpl; rewrite length_app; simpl; lia|].
  destruct (String.eqb_spec p "vn") as [->|_];
    [simpl; rewrite length_app; simpl; lia|].
  destruct (String.eqb_spec p "f") as [->|_];
    [simpl; rewrite length_app; simpl; lia|].
  destruct (String.eqb p "mtllib");
    [destruct (scan_mtl _ _ _ _)|]; simpl; lia.
Qed.

Lemma load_lines_lengths (d : string) (lines : list string) :
  forall n st,
    let st' := load_lines reader env d n lines st in
    length (ls_vertices st') =
      (length (ls_vertices st) + count_prefix "v" lines)%nat /\
    length (ls_textures st') =
      (length (ls_textures st) + count_prefix "vt" lines)%nat /\
    length (ls_normals st') =
      (length (ls_normals st) + count_prefix "vn" lines)%nat /\
    length (ls_faces st') =
      (length (ls_faces st) + count_prefix "f" lines)%nat.
Proof.
  unfold count_prefix.
  induction lines as [|line lines IH]; intros n st; simpl.
  - lia.
  - specialize (IH (S n) (load_line reader env d n line st)).
    simpl in IH. destruct IH as (I1 & I2 & I3 & I4).
    destruct (load_line_lengths d n line st) as (L1 & L2 & L3 & L4).
    rewrite I1, I2, I3, I4, L1, L2, L3, L4.
    destruct (has_prefix "v" line), (has_prefix "vt" line),
             (has_prefix "vn" line), (has_prefix "f" line); simpl; lia.
Qed.

(** A line with any other leading token leaves the four vectors alone. *)
Lemma load_line_other (d : string) (n : nat) (line : string) (st : LoadState) :
  has_prefix "v" line = false -> has_prefix "vt" line = false ->
  has_prefix "vn" line = false -> has_prefix "f" line = false ->
  let st' := load_line reader env d n line st in
  ls_vertices st' = ls_vertices st /\ ls_textures st' = ls_textures st /\
  ls_normals st' = ls_normals st /\ ls_faces st' = ls_faces st.
Proof.
  unfold load_line, has_prefix. destruct (read_prefix line) as [p iss].
  simpl fst. intros -> -> -> ->.
  destruct (String.eqb p "mtllib");
    [destruct (scan_mtl _ _ _ _)|]; simpl; auto.
Qed.

(** The vector a [v], [vt], [vn] or [f] line is pushed onto. *)
Lemma load_line_v (d : string) (n : nat) (line : string) (st : LoadState) :
  has_prefix "v" line = true ->
  load_line reader env d n line st =
  mkLoadState
    (ls_vertices st ++
       [fst (read_Vertex reader (uninit_Vertex env n) (snd (read_prefix line)))])
    (ls_textures st) (ls_normals st) (ls_faces st)
    (ls_mtlFilename st) (ls_textureName st) (ls_global st).
Proof.
  unfold load_line, has_prefix. destruct (read_prefix line) as [p iss].
  simpl. intros ->. reflexivity.
Qed.

Lemma load_line_vt (d : string) (n : nat) (line : string) (st : LoadState) :
  has_prefix "vt" line = true ->
  load_line reader env d n line st =
  mkLoadState (ls_vertices st)
    (ls_textures st ++
       [fst (read_TextureCoords reader (uninit_TextureCoords env n)
               (snd (read_prefix line)))])
    (ls_normals st) (ls_faces st)
    (ls_mtlFilename st) (ls_textureName st) (ls_global st).
Proof.
  unfold load_line, has_prefix. destruct (read_prefix line) as [p iss].
  simpl. intros E. apply String.eqb_eq in E as ->. reflexivity.
Qed.

Lemma load_line_vn (d : string) (n : nat) (line : string) (st : LoadState) :
  has_prefix "vn" line = true ->
  load_line reader env d n line st =
  mkLoadState (ls_vertices st) (ls_textures st)
    (ls_normals st ++
       [fst (read_Normal reader (uninit_Normal env n) (snd (read_prefix line)))])
    (ls_faces st)
    (ls_mtlFilename st) (ls_textureName st) (ls_global st).
Proof.
  unfold load_line, has_prefix. destruct (read_prefix line) as [p iss].
  simpl. intros E. apply String.eqb_eq in E as ->. reflexivity.
Qed.

Lemma load_line_f (d : string) (n : nat) (line : string) (st : LoadState) :
  has_prefix "f" line = true ->
  load_line reader env d n line st =
  mkLoadState (ls_vertices st) (ls_textures st) (ls_normals st)
    (ls_faces st ++ [parse_face_line (uninit_Face env n) line])
    (ls_mtlFilename st) (ls_textureName st) (ls_global st).
Proof.
  unfold load_line, has_prefix, parse_face_line.
  destruct (read_prefix line) as [p iss].
  simpl. intros E. apply String.eqb_eq in E as ->. reflexivity.
Qed.

End LoadProperties.

Lemma getTriangles_ext (o1 o2 : ObjLoader.t) :
  ObjLoader.vertices o1 = ObjLoader.vertices o2 ->
  ObjLoader.textures o1 = ObjLoader.textures o2 ->
  ObjLoader.normals o1 = ObjLoader.normals o2 ->
  ObjLoader.faces o1 = ObjLoader.faces o2 ->
  getTriangles o1 = getTriangles o2.
Proof.
  intros Hv Ht Hn Hf. unfold getTriangles. rewrite Hf.
  assert (E : forall f, assemble_face o1 f = assemble_face o2 f)
    by (intros f; unfold assemble_face, resolve_corner;
        rewrite Hv, Ht, Hn; reflexivity).
  assert (L : forall faces acc,
             getTriangles_loop o1 faces acc = getTriangles_loop o2 faces acc).
  { induction faces as [|f faces IH]; intros acc; simpl; [reflexivity|].
    rewrite E. destruct (assemble_face o2 f); [apply IH | reflexivity]. }
  apply L.
Qed.

(** C7.  The loader built from a file holds as many positions, texture
    coordinates, normals and faces as the file has lines whose leading token
    is [v], [vt], [vn] and [f]; a line with any other leading token, a blank
    line and a [#] line among them, changes none of the four vectors. *)
Theorem C7_pool_sizes (reader : string -> float * bool * string) (env : Env)
    (filename : string) (type : Z) (g : Globals) :
  let o := fst (ObjLoader_new reader env filename type g) in
  let lines := ifstream_lines env filename in
  (length (ObjLoader.vertices o) = count_prefix "v" lines /\
   length (ObjLoader.textures o) = count_prefix "vt" lines /\
   length (ObjLoader.normals o) = count_prefix "vn" lines /\
   length (ObjLoader.faces o) = count_prefix "f" lines) /\
  (forall d n line st,
     has_prefix "v" line = false -> has_prefix "vt" line = false ->
     has_prefix "vn" line = false -> has_prefix "f" line = false ->
     let st' := load_line reader env d n line st in
     ls_vertices st' = ls_vertices st /\ ls_textures st' = ls_textures st /\
     ls_normals st' = ls_normals st /\ ls_faces st' = ls_faces st) /\
  (forall p rest,
     In p ["v"; "vt"; "vn"; "f"] ->
     has_prefix p EmptyString = false /\
     has_prefix p (String "#" rest) = false).
Proof.
  split; [|split].
  - unfold ObjLoader_new, load. simpl.
    pose proof (load_lines_lengths reader env (directory_of filename)
                  (ifstream_lines env filename) 0
                  (mkLoadState [] [] [] [] EmptyString EmptyString g)) as H.
    simpl in H. exact H.
  - intros d n line st. apply load_line_other.
  - intros p rest Hp. split.
    + simpl in Hp. destruct Hp as [<-|[<-|[<-|[<-|[]]]]]; reflexivity.
    + unfold has_prefix, read_prefix, IStream.extract_string, IStream.bind,
        IStream.sentry. simpl.
      destruct (span _ rest) as [a b]. simpl.
      simpl in Hp. destruct Hp as [<-|[<-|[<-|[<-|[]]]]]; reflexivity.
Qed.

Lemma C7_witness :
  let env := sample_env [("w.obj", winding_obj)] 0 in
  let o := fst (ObjLoader_new read_decimal env "w.obj" 1 process_start) in
  let st := mkLoadState [] [] [] [] EmptyString EmptyString process_start in
  (length (ObjLoader.vertices o) = 3%nat /\
   length (ObjLoader.textures o) = 3%nat /\
   length (ObjLoader.normals o) = 3%nat /\
   length (ObjLoader.faces o) = 2%nat) /\
  ls_faces (load_line read_decimal env "" 0 "usemtl wood" st) = ls_faces st.
Proof.
  intros env o st.
  destruct (C7_pool_sizes read_decimal env "w.obj" 1 process_start)
    as (Sizes & Other & _).
  split; [exact Sizes|].
  exact (proj2 (proj2 (proj2
           (Other "" 0%nat "usemtl wood" st eq_refl eq_refl eq_refl eq_refl)))).
Defined.

(** C6 (as amended).  A line whose leading token is [v], [vt] or [vn]
    appends exactly one entry to its pool, whatever follows the token, and
    leaves the rest of the state as it was; [load] has no failing result and
    raises no MalformedLine. *)
Theorem C6_attribute_lines_always_append
    (reader : string -> float * bool * string) (env : Env)
    (d : string) (n : nat) (line : string) (st : LoadState) :
  let st' := load_line reader env d n line st in
  (has_prefix "v" line = true ->
   exists vertex, st' =
     mkLoadState (ls_vertices st ++ [vertex]) (ls_textures st) (ls_normals st)
       (ls_faces st) (ls_mtlFilename st) (ls_textureName st) (ls_global st)) /\
  (has_prefix "vt" line = true ->
   exists texture, st' =
     mkLoadState (ls_vertices st) (ls_textures st ++ [texture]) (ls_normals st)
       (ls_faces st) (ls_mtlFilename st) (ls_textureName st) (ls_global st)) /\
  (has_prefix "vn" line = true ->
   exists normal, st' =
     mkLoadState (ls_vertices st) (ls_textures st) (ls_normals st ++ [normal])
       (ls_faces st) (ls_mtlFilename st) (ls_textureName st) (ls_global st)).
Proof.
  simpl. repeat split; intros H.
  - rewrite load_line_v by assumption. eauto.
  - rewrite load_line_vt by assumption. eauto.
  - rewrite load_line_vn by assumption. eauto.
Qed.

Lemma C6_witness :
  let env := sample_env [] 0 in
  let st := mkLoadState [] [] [] [] EmptyString EmptyString process_start in
  has_prefix "v" "v 1.0" = true /\
  exists vertex,
    load_line read_decimal env "" 0 "v 1.0" st =
    mkLoadState [vertex] [] [] [] EmptyString EmptyString process_start.
Proof.
  intros env st. split; [reflexivity|].
  exact (proj1 (C6_attribute_lines_always_append read_decimal env "" 0
                  "v 1.0" st) eq_refl).
Defined.

(** C6 fails as stated: [v 1.0] (one field), [vt abc 2] (a non-numeric
    field) and [vn] (no field) each append an entry. *)
Lemma C6_counterexample :
  let o := load_sample [("m.obj", malformed_obj)] 0 "m.obj" 1 in
  has_prefix "v" "v 1.0" = true /\
  has_prefix "vt" "vt abc 2" = true /\
  has_prefix "vn" "vn" = true /\
  length (ObjLoader.vertices o) = 1%nat /\
  length (ObjLoader.textures o) = 1%nat /\
  length (ObjLoader.normals o) = 1%nat.
Proof.
  vm_compute. repeat split; reflexivity.
Qed.

(** What the corner loop leaves in a slot it does not write: the content
    the unassigned [int] had, decremented. *)
Lemma unwritten_slots (junk : Face.t) :
  let f1 := parse_face_line junk "f 1 2 3" in
  let f2 := parse_face_line junk "f 1/1 2/2 3/3" in
  let f3 := parse_face_line junk "f 1//1 2//2 3//3" in
  Face.textureIndices f1 = amap pre_decr (Face.textureIndices junk) /\
  Face.normalIndices f1 = amap pre_decr (Face.normalIndices junk) /\
  Face.normalIndices f2 = amap pre_decr (Face.normalIndices junk) /\
  Face.textureIndices f3 = amap pre_decr (Face.textureIndices junk).
Proof.
  destruct junk as [[[p0 p1] p2] [[t0 t1] t2] [[n0 n1] n2]].
  repeat split; reflexivity.
Qed.

(** C3 (as amended).  Each of the four corner forms parses to position
    indices 0, 1, 2, and every written texture or normal index is likewise
    stored 0-based.  An index that is not written has no representation of
    its own: a Face holds plain [int]s, and a bare face can be stored exactly
    as a fully written one is.  [getTriangles] makes no presence check and
    reports no AddressingError. *)
Theorem C3_corner_forms (junk : Face.t) :
  let f1 := parse_face_line junk "f 1 2 3" in
  let f2 := parse_face_line junk "f 1/1 2/2 3/3" in
  let f3 := parse_face_line junk "f 1//1 2//2 3//3" in
  let f4 := parse_face_line junk "f 1/1/1 2/2/2 3/3/3" in
  (Face.vertexIndices f1 = (0, 1, 2) /\ Face.vertexIndices f2 = (0, 1, 2) /\
   Face.vertexIndices f3 = (0, 1, 2) /\ Face.vertexIndices f4 = (0, 1, 2)) /\
  (Face.textureIndices f2 = (0, 1, 2) /\ Face.normalIndices f3 = (0, 1, 2) /\
   Face.textureIndices f4 = (0, 1, 2) /\ Face.normalIndices f4 = (0, 1, 2)) /\
  (exists unassigned,
     parse_face_line unassigned "f 1 2 3" =
     parse_face_line unassigned "f 1/1/1 2/1/1 3/1/1") /\
  (forall o kind faceIndex cornerIndex,
     ~ reports (getTriangles o) (AddressingError kind faceIndex cornerIndex)).
Proof.
  destruct junk as [[[p0 p1] p2] [[t0 t1] t2] [[n0 n1] n2]].
  split; [repeat split; reflexivity|].
  split; [repeat split; reflexivity|].
  split.
  - exists (Face.mk (1, 1, 1) (1, 1, 1) (1, 1, 1)). reflexivity.
  - intros o kind f c. unfold reports. destruct (getTriangles o); tauto.
Qed.

(** C3 fails as stated: with 1 in the unassigned slots, [f 1 2 3] is stored
    exactly as [f 1/1/1 2/1/1 3/1/1] is, its texture and normal indices are
    index 0, and assembly resolves pool entry 0 for them. *)
Lemma C3_counterexample :
  let o := load_sample [("t.obj", bare_face_obj)] 1 "t.obj" 2 in
  let o' := load_sample
              [("t.obj", unlines (pool_lines ++ ["f 1/1/1 2/1/1 3/1/1"]))]
              1 "t.obj" 2 in
  ObjLoader.faces o = [Face.mk (0, 1, 2) (0, 0, 0) (0, 0, 0)] /\
  ObjLoader.faces o = ObjLoader.faces o' /\
  exists tr t0 n0,
    getTriangles o = Some [tr] /\
    nth_error (ObjLoader.textures o) 0 = Some t0 /\
    nth_error (ObjLoader.normals o) 0 = Some n0 /\
    Triangle.textures tr = (t0, t0, t0) /\
    Triangle.normals tr = (n0, n0, n0).
Proof.
  vm_compute. repeat split.
  eexists. eexists. eexists. repeat split.
Qed.

(* ================================================================= *)
(** * The global texture name *)

Section GlobalTexture.

Variable reader : string -> float * bool * string.
Variable env : Env.

(** A scan either leaves the global alone or overwrites it with a value
    that does not depend on what it held. *)
Lemma scan_mtl_overwrite (d : string) (mtlLines : list string) (t : string) :
  exists t' r, forall g, scan_mtl d mtlLines t g = (t', overwrite r g).
Proof.
  induction mtlLines as [|l ls IH]; simpl.
  - exists t, None. reflexivity.
  - destruct (IStream.extract_string _ (IStream.of_string l)) as [p iss].
    destruct (String.eqb p "map_Kd").
    + eexists. exists (Some (mkGlobals
        (d ++ "/" ++ fst (IStream.extract_string t iss))%string)).
      reflexivity.
    + exact IH.
Qed.

Lemma load_line_overwrite (d : string) (n : nat) (line : string)
    (st : LoadState) :
  exists r, forall g,
    load_line reader env d n line (with_global st g) =
    with_global (load_line reader env d n line st) (overwrite r g).
Proof.
  unfold load_line. destruct (read_prefix line) as [p iss].
  destruct (String.eqb p "v"); [exists None; reflexivity|].
  destruct (String.eqb p "vt"); [exists None; reflexivity|].
  destruct (String.eqb p "vn"); [exists None; reflexivity|].
  destruct (String.eqb p "f"); [exists None; reflexivity|].
  destruct (String.eqb p "mtllib"); [|exists None; destruct st; reflexivity].
  simpl ls_mtlFilename. simpl ls_textureName. simpl ls_global.
  destruct (scan_mtl_overwrite d
              (ifstream_lines env
                 (d ++ "/" ++ fst (IStream.extract_string (ls_mtlFilename st) iss))%string)
              (ls_textureName st)) as (t' & r & H).
  exists r. intros g. rewrite !H. reflexivity.
Qed.

Lemma overwrite_overwrite (r1 r2 : option Globals) (g : Globals) :
  overwrite r2 (overwrite r1 g) =
  overwrite (match r2 with Some x => Some x | None => r1 end) g.
Proof. destruct r1, r2; reflexivity. Qed.

Lemma load_lines_overwrite (d : string) (lines : list string) :
  forall n st, exists r, forall g,
    load_lines reader env d n lines (with_global st g) =
    with_global (load_lines reader env d n lines st) (overwrite r g).
Proof.
  induction lines as [|line lines IH]; intros n st; simpl.
  - exists None. reflexivity.
  - destruct (load_line_overwrite d n line st) as [r1 H1].
    destruct (IH (S n) (load_line reader env d n line st)) as [r2 H2].
    exists (match r2 with Some x => Some x | None => r1 end).
    intros g. rewrite H1, H2, overwrite_overwrite. reflexivity.
Qed.

(** The constructor's effect on the global, and on the loader it builds:
    only the texture name depends on the global found at the call. *)
Lemma ObjLoader_new_overwrite (filename : string) :
  exists r, forall type g,
    let o := fst (ObjLoader_new reader env filename type g) in
    let o0 := fst (ObjLoader_new reader env filename 0 process_start) in
    snd (ObjLoader_new reader env filename type g) = overwrite r g /\
    ObjLoader.textureName o = gTextureName (overwrite r g) /\
    ObjLoader.modelType o = type /\
    ObjLoader.vertices o = ObjLoader.vertices o0 /\
    ObjLoader.textures o = ObjLoader.textures o0 /\
    ObjLoader.normals o = ObjLoader.normals o0 /\
    ObjLoader.faces o = ObjLoader.faces o0.
Proof.
  set (st0 := mkLoadState [] [] [] [] EmptyString EmptyString process_start).
  destruct (load_lines_overwrite (directory_of filename)
              (ifstream_lines env filename) 0 st0) as [r H].
  exists r. intros type g. unfold ObjLoader_new, load. simpl.
  change (mkLoadState [] [] [] [] EmptyString EmptyString g)
    with (with_global st0 g).
  change (mkLoadState [] [] [] [] EmptyString EmptyString process_start)
    with (with_global st0 process_start).
  rewrite !H. simpl. repeat split; reflexivity.
Qed.

End GlobalTexture.

(** C9.  The constructor stores its [type] argument in [modelType] and uses
    it for nothing else: built from one file with two types, from the same
    global or one after the other, two loaders hold the same pools, faces
    and texture name, assemble to the same triangles, and leave the same
    global behind. *)
Theorem C9_type_is_opaque (reader : string -> float * bool * string)
    (env : Env) (filename : string) (t1 t2 : Z) (g : Globals) :
  let r1 := ObjLoader_new reader env filename t1 g in
  let r2 := ObjLoader_new reader env filename t2 g in
  let r3 := ObjLoader_new reader env filename t2 (snd r1) in
  ObjLoader.modelType (fst r1) = t1 /\
  ObjLoader.modelType (fst r2) = t2 /\
  ObjLoader.modelType (fst r3) = t2 /\
  same_model (fst r1) (fst r2) /\ snd r2 = snd r1 /\
  same_model (fst r1) (fst r3) /\ snd r3 = snd r1.
Proof.
  destruct (ObjLoader_new_overwrite reader env filename) as [r H].
  intros r1 r2 r3.
  destruct (H t1 g) as (G1 & N1 & M1 & V1 & T1 & K1 & F1).
  destruct (H t2 g) as (G2 & N2 & M2 & V2 & T2 & K2 & F2).
  destruct (H t2 (snd r1)) as (G3 & N3 & M3 & V3 & T3 & K3 & F3).
  fold r1 in G1, N1, M1, V1, T1, K1, F1.
  fold r2 in G2, N2, M2, V2, T2, K2, F2.
  fold r3 in G3, N3, M3, V3, T3, K3, F3.
  assert (I : overwrite r (snd r1) = overwrite r g)
    by (rewrite G1; destruct r; reflexivity).
  rewrite I in G3, N3.
  unfold same_model.
  repeat split; try congruence; apply getTriangles_ext; congruence.
Qed.

(* ================================================================= *)
(** * Material and texture resolution *)

Section TextureResolution.

Variable reader : string -> float * bool * string.
Variable env : Env.

Lemma no_space_span (m : string) :
  no_space m = true -> span (fun c => negb (isspace c)) m = (m, EmptyString).
Proof.
  induction m as [|c m IH]; simpl; [reflexivity|].
  intros H. apply andb_true_iff in H as [Hc Hm].
  rewrite Hc, (IH Hm). reflexivity.
Qed.

Lemma span_blank (c : ascii) (m : string) :
  isspace c = false ->
  span isspace (String " " (String c m)) = (" ", String c m).
Proof.
  intros H.
  change (span isspace (String " " (String c m)))
    with (if isspace " " then
            let (a, b) := (if isspace c
                           then let (a, b) := span isspace m in (String c a, b)
                           else (EmptyString, String c m))
            in (String " "%char a, b)
          else (EmptyString, String " " (String c m))).
  rewrite H. reflexivity.
Qed.

(** Reading a token that follows one blank. *)
Lemma extract_string_token (old m : string) :
  is_token m = true ->
  IStream.extract_string old (IStream.mk (String " " m) false false) =
  (m, IStream.mk EmptyString true false).
Proof.
  unfold is_token. destruct m as [|c m]; [discriminate|].
  intros H. simpl in H. pose proof H as Hm.
  apply andb_true_iff in H as [Hc _].
  apply negb_true_iff in Hc.
  unfold IStream.extract_string, IStream.bind, IStream.sentry.
  cbn [IStream.good IStream.buf IStream.eofbit IStream.failbit negb andb].
  rewrite (span_blank c m Hc).
  cbn [snd is_empty IStream.buf].
  change (no_space (String c m) = true) in Hm.
  rewrite (no_space_span _ Hm). reflexivity.
Qed.

Lemma read_prefix_mtllib (m : string) :
  read_prefix ("mtllib " ++ m) =
  ("mtllib", IStream.mk (String " " m) false false).
Proof. reflexivity. Qed.

Lemma read_prefix_map_Kd (tex : string) :
  read_prefix ("map_Kd " ++ tex) =
  ("map_Kd", IStream.mk (String " " tex) false false).
Proof. reflexivity. Qed.

(** An [mtllib] line opens [directory/name] and scans it. *)
Lemma load_line_mtllib (d : string) (n : nat) (m : string) (st : LoadState) :
  is_token m = true ->
  load_line reader env d n ("mtllib " ++ m) st =
  let (t, g) := scan_mtl d (ifstream_lines env (d ++ "/" ++ m))
                  (ls_textureName st) (ls_global st) in
  mkLoadState (ls_vertices st) (ls_textures st) (ls_normals st)
    (ls_faces st) m t g.
Proof.
  intros Hm. unfold load_line. rewrite read_prefix_mtllib.
  cbn -[scan_mtl IStream.extract_string ifstream_lines String.append].
  rewrite extract_string_token by assumption. reflexivity.
Qed.

(** The scan stops at the first [map_Kd] line. *)
Lemma scan_mtl_first (d : string) (mpre mpost : list string)
    (tex t : string) (g : Globals) :
  is_token tex = true ->
  Forall (fun l => has_prefix "map_Kd" l = false) mpre ->
  scan_mtl d (mpre ++ ("map_Kd " ++ tex)%string :: mpost) t g =
  (tex, mkGlobals (d ++ "/" ++ tex)).
Proof.
  intros Ht F. induction F as [|l mpre Hl F IH].
  - cbn -[IStream.extract_string String.append].
    change (IStream.extract_string EmptyString
              (IStream.of_string ("map_Kd " ++ tex)))
      with (read_prefix ("map_Kd " ++ tex)).
    rewrite read_prefix_map_Kd.
    cbn -[IStream.extract_string String.append].
    rewrite extract_string_token by assumption. reflexivity.
  - cbn -[IStream.extract_string String.append].
    unfold has_prefix, read_prefix in Hl.
    destruct (IStream.extract_string EmptyString (IStream.of_string l))
      as [p iss].
    simpl in Hl. rewrite Hl. exact IH.
Qed.

(** A scan with no [map_Kd] line changes nothing. *)
Lemma scan_mtl_nothing (d : string) (mtlLines : list string)
    (t : string) (g : Globals) :
  Forall (fun l => has_prefix "map_Kd" l = false) mtlLines ->
  scan_mtl d mtlLines t g = (t, g).
Proof.
  intros F. induction F as [|l ls Hl F IH]; [reflexivity|].
  cbn -[IStream.extract_string].
  unfold has_prefix, read_prefix in Hl.
  destruct (IStream.extract_string EmptyString (IStream.of_string l))
    as [p iss].
  simpl in Hl. rewrite Hl. exact IH.
Qed.

Lemma load_line_keeps_global (d : string) (n : nat) (line : string)
    (st : LoadState) :
  has_prefix "mtllib" line = false ->
  ls_global (load_line reader env d n line st) = ls_global st.
Proof.
  unfold load_line, has_prefix. destruct (read_prefix line) as [p iss].
  simpl fst. intros ->.
  destruct (String.eqb p "v"), (String.eqb p "vt"), (String.eqb p "vn"),
           (String.eqb p "f"); reflexivity.
Qed.

Lemma load_lines_keep_global (d : string) (lines : list string) :
  Forall (fun l => has_prefix "mtllib" l = false) lines ->
  forall n st, ls_global (load_lines reader env d n lines st) = ls_global st.
Proof.
  intros F. induction F as [|l ls Hl F IH]; intros n st; simpl; [reflexivity|].
  rewrite IH. apply load_line_keeps_global, Hl.
Qed.

Lemma load_lines_app (d : string) (pre post : list string) :
  forall n st,
    load_lines reader env d n (pre ++ post) st =
    load_lines reader env d (n + length pre) post
      (load_lines reader env d n pre st).
Proof.
  induction pre as [|l pre IH]; intros n st; simpl.
  - rewrite Nat.add_0_r. reflexivity.
  - rewrite IH. f_equal. lia.
Qed.

Lemma directory_of_no_slash (filename : string) :
  find_last_of filename "/" = None -> directory_of filename = filename.
Proof. unfold directory_of. intros ->. reflexivity. Qed.

Lemma directory_of_join (dir base : string) :
  find_last_of base "/" = None ->
  directory_of (dir ++ "/" ++ base) = dir.
Proof.
  intros H. unfold directory_of.
  change ("/" ++ base)%string with (String "/" base).
  assert (R : find_last_of (String "/" base) "/" = Some 0%nat)
    by (simpl; rewrite H; reflexivity).
  revert R. generalize (String "/" base) as rest. intros rest R.
  assert (P : find_last_of (dir ++ rest) "/" = Some (String.length dir)).
  { induction dir as [|c dir IH]; simpl; [exact R|].
    rewrite IH. reflexivity. }
  rewrite P. simpl. clear P R.
  induction dir as [|c dir IH]; simpl.
  - destruct rest; reflexivity.
  - rewrite IH. reflexivity.
Qed.

(** The texture name of a loader whose file has an [mtllib] line, later
    followed by no other, naming a material file with a [map_Kd] line. *)
Lemma texture_resolution (filename : string) (type : Z) (g : Globals)
    (m tex : string) (pre post mpre mpost : list string) :
  is_token m = true -> is_token tex = true ->
  ifstream_lines env filename = pre ++ ("mtllib " ++ m)%string :: post ->
  Forall (fun l => has_prefix "mtllib" l = false) post ->
  ifstream_lines env (directory_of filename ++ "/" ++ m) =
    mpre ++ ("map_Kd " ++ tex)%string :: mpost ->
  Forall (fun l => has_prefix "map_Kd" l = false) mpre ->
  getTextureName (fst (ObjLoader_new reader env filename type g)) =
  (directory_of filename ++ "/" ++ tex)%string.
Proof.
  intros Hm Ht Hl Hpost Hmtl Hmpre.
  unfold getTextureName, ObjLoader_new, load.
  cbn -[load_lines directory_of ifstream_lines String.append].
  rewrite Hl, load_lines_app.
  cbn -[load_line directory_of ifstream_lines String.append].
  rewrite load_lines_keep_global by assumption.
  rewrite load_line_mtllib by assumption.
  rewrite Hmtl, scan_mtl_first by assumption.
  reflexivity.
Qed.

(** Without any [mtllib] line the loader takes the texture name the
    global held when the constructor was called. *)
Lemma texture_without_mtllib (filename : string) (type : Z) (g : Globals) :
  Forall (fun l => has_prefix "mtllib" l = false)
    (ifstream_lines env filename) ->
  getTextureName (fst (ObjLoader_new reader env filename type g)) =
  gTextureName g.
Proof.
  intros F. unfold getTextureName, ObjLoader_new, load.
  cbn -[load_lines directory_of ifstream_lines].
  rewrite load_lines_keep_global by assumption. reflexivity.
Qed.

(** Likewise when the one [mtllib] line names a material file that cannot
    be opened, or that has no [map_Kd] line. *)
Lemma texture_without_map_Kd (filename : string) (type : Z) (g : Globals)
    (m : string) (pre post : list string) :
  is_token m = true ->
  ifstream_lines env filename = pre ++ ("mtllib " ++ m)%string :: post ->
  Forall (fun l => has_prefix "mtllib" l = false) pre ->
  Forall (fun l => has_prefix "mtllib" l = false) post ->
  Forall (fun l => has_prefix "map_Kd" l = false)
    (ifstream_lines env (directory_of filename ++ "/" ++ m)) ->
  getTextureName (fst (ObjLoader_new reader env filename type g)) =
  gTextureName g.
Proof.
  intros Hm Hl Hpre Hpost Hmtl.
  unfold getTextureName, ObjLoader_new, load.
  cbn -[load_lines directory_of ifstream_lines String.append].
  rewrite Hl, load_lines_app.
  cbn -[load_line directory_of ifstream_lines String.append].
  rewrite load_lines_keep_global by assumption.
  rewrite load_line_mtllib by assumption.
  rewrite scan_mtl_nothing by assumption.
  cbn -[load_lines directory_of ifstream_lines String.append].
  rewrite load_lines_keep_global by assumption. reflexivity.
Qed.

End TextureResolution.

(** C5.  A geometry file [dir/base] with a line [mtllib m], followed by no
    other [mtllib] line, whose material file [dir/m] has [map_Kd tex] as its
    first [map_Kd] line, gets the texture path [dir/tex]: names resolve
    against the directory of the geometry file, and whatever follows the
    first [map_Kd] line in the material file is not read. *)
Theorem C5_material_resolution (reader : string -> float * bool * string)
    (env : Env) (dir base m tex : string) (type : Z) (g : Globals)
    (pre post mpre mpost : list string) :
  find_last_of base "/" = None ->
  is_token m = true -> is_token tex = true ->
  ifstream_lines env (dir ++ "/" ++ base) =
    pre ++ ("mtllib " ++ m)%string :: post ->
  Forall (fun l => has_prefix "mtllib" l = false) post ->
  ifstream_lines env (dir ++ "/" ++ m) =
    mpre ++ ("map_Kd " ++ tex)%string :: mpost ->
  Forall (fun l => has_prefix "map_Kd" l = false) mpre ->
  getTextureName (fst (ObjLoader_new reader env (dir ++ "/" ++ base) type g)) =
  (dir ++ "/" ++ tex)%string.
Proof.
  intros Hb Hm Ht Hl Hpost Hmtl Hmpre.
  pose proof (directory_of_join dir base Hb) as D.
  rewrite <- D at 2.
  apply (texture_resolution reader env _ type g m tex pre post mpre mpost);
    try assumption.
  rewrite D. exact Hmtl.
Qed.

Lemma C5_witness :
  getTextureName (load_sample texture_files 0 "assets/cube.obj" 3) =
  "assets/wood.png".
Proof.
  exact (C5_material_resolution read_decimal (sample_env texture_files 0)
           "assets" "cube.obj" "m.mtl" "wood.png" 3 process_start
           ["# cube"] (pool_lines ++ ["f 1/1/1 2/2/2 3/3/3"])
           ["newmtl wood"; "Kd 1 1 1"] ["map_Kd other.png"]
           eq_refl eq_refl eq_refl eq_refl
           ltac:(repeat constructor)
           eq_refl
           ltac:(repeat constructor)).
Defined.

(** C10.  For a filename without '/', the directory the loader derives is
    the filename itself: an [mtllib m] line opens [filename/m], and a
    texture found there is recorded as [filename/tex]. *)
Theorem C10_bare_filename_is_directory
    (reader : string -> float * bool * string) (env : Env) (filename : string) :
  find_last_of filename "/" = None ->
  directory_of filename = filename /\
  (forall n m st,
     is_token m = true ->
     load_line reader env (directory_of filename) n ("mtllib " ++ m) st =
     let (t, g) := scan_mtl filename (ifstream_lines env (filename ++ "/" ++ m))
                     (ls_textureName st) (ls_global st) in
     mkLoadState (ls_vertices st) (ls_textures st) (ls_normals st)
       (ls_faces st) m t g) /\
  (forall type g m tex pre post mpre mpost,
     is_token m = true -> is_token tex = true ->
     ifstream_lines env filename = pre ++ ("mtllib " ++ m)%string :: post ->
     Forall (fun l => has_prefix "mtllib" l = false) post ->
     ifstream_lines env (filename ++ "/" ++ m) =
       mpre ++ ("map_Kd " ++ tex)%string :: mpost ->
     Forall (fun l => has_prefix "map_Kd" l = false) mpre ->
     getTextureName (fst (ObjLoader_new reader env filename type g)) =
     (filename ++ "/" ++ tex)%string).
Proof.
  intros H. pose proof (directory_of_no_slash filename H) as D.
  split; [exact D|]. split.
  - intros n m st Hm. rewrite load_line_mtllib by assumption.
    rewrite D. reflexivity.
  - intros type g m tex pre post mpre mpost Hm Ht Hl Hpost Hmtl Hmpre.
    rewrite <- D at 2.
    apply (texture_resolution reader env _ type g m tex pre post mpre mpost);
      try assumption.
    rewrite D. exact Hmtl.
Qed.

Lemma C10_witness :
  find_last_of "cube.obj" "/" = None /\
  directory_of "cube.obj" = "cube.obj" /\
  getTextureName (load_sample texture_files 0 "cube.obj" 3) =
  "cube.obj/wood.png".
Proof.
  assert (H : find_last_of "cube.obj" "/" = None) by reflexivity.
  destruct (C10_bare_filename_is_directory read_decimal
              (sample_env texture_files 0) "cube.obj" H) as (D & _ & T).
  split; [exact H|]. split; [exact D|].
  exact (T 3 process_start "m.mtl" "wood.png" [] [] [] []
           eq_refl eq_refl eq_refl ltac:(constructor) eq_refl
           ltac:(constructor)).
Defined.

(** C2, on the code: a loader built for a file without [mtllib] after a
    textured model carries that model's texture path, where the same file
    parsed first in the process gets the empty path. *)
Theorem C2_texture_leaks_between_parses :
  let env := sample_env texture_files 0 in
  let first := ObjLoader_new read_decimal env "assets/cube.obj" 3 process_start in
  let second := ObjLoader_new read_decimal env "assets/plain.obj" 1 (snd first) in
  let alone := ObjLoader_new read_decimal env "assets/plain.obj" 1 process_start in
  count_prefix "mtllib" (ifstream_lines env "assets/plain.obj") = 0%nat /\
  getTextureName (fst alone) = "" /\
  getTextureName (fst second) = "assets/wood.png" /\
  getTextureName (fst second) <> getTextureName (fst alone).
Proof.
  vm_compute. repeat split. discriminate.
Qed.

(** C4, on the code: after a textured model has been parsed, a file with no
    [mtllib], one whose material file cannot be opened and one whose
    material file has no [map_Kd] each get that model's texture path, not
    the empty string. *)
Theorem C4_stale_texture_without_material :
  let env := sample_env texture_files 0 in
  let g := snd (ObjLoader_new read_decimal env "assets/cube.obj" 3 process_start) in
  let texture_of filename :=
    getTextureName (fst (ObjLoader_new read_decimal env filename 1 g)) in
  fs env "assets/nowhere.mtl" = None /\
  count_prefix "map_Kd" (ifstream_lines env "assets/flat.mtl") = 0%nat /\
  texture_of "assets/plain.obj" = "assets/wood.png" /\
  texture_of "assets/missing.obj" = "assets/wood.png" /\
  texture_of "assets/flat.obj" = "assets/wood.png".
Proof.
  vm_compute. repeat split.
Qed.

(* ================================================================= *)
(** * Further properties of the loader *)

Section LoaderEdgeCases.

Variable reader : string -> float * bool * string.
Variable env : Env.

(** X1.  A primary file that cannot be opened, or is empty, is no error: the
    constructor returns a loader with empty pools and no faces, whose
    texture name is what the global held; the global is left as it was and
    [getTriangles] returns the empty mesh. *)
Theorem X1_unreadable_file_gives_empty_loader (filename : string) (type : Z)
    (g : Globals) :
  ifstream_lines env filename = [] ->
  ObjLoader_new reader env filename type g =
    (ObjLoader.mk type [] [] [] [] (gTextureName g), g) /\
  getTriangles (fst (ObjLoader_new reader env filename type g)) = Some [].
Proof.
  intros H. unfold ObjLoader_new, load. rewrite H. simpl.
  destruct g. split; reflexivity.
Qed.




Lemma read_prefix_leading_space (c : ascii) (line : string) :
  isspace c = true -> read_prefix (String c line) = read_prefix line.
Proof.
  intros H. unfold read_prefix, IStream.extract_string, IStream.bind,
    IStream.sentry, IStream.of_string.
  cbn [IStream.good IStream.buf IStream.eofbit IStream.failbit negb andb].
  change (span isspace (String c line))
    with (if isspace c
          then let (a, b) := span isspace line in (String c a, b)
          else (EmptyString, String c line)).
  rewrite H. destruct (span isspace line) as [a b]. reflexivity.
Qed.

(** X3.  White space before the leading token of a line is skipped: an
    indented line of the geometry file, or of a material file, is read as
    the same line without the indentation. *)
Theorem X3_indentation_is_ignored (c : ascii) (line : string) :
  isspace c = true ->
  (forall d n st,
     load_line reader env d n (String c line) st =
     load_line reader env d n line st) /\
  (forall d rest t g,
     scan_mtl d (String c line :: rest) t g = scan_mtl d (line :: rest) t g).
Proof.
  intros H. split.
  - intros d n st. unfold load_line.
    rewrite (read_prefix_leading_space c line H). reflexivity.
  - intros d rest t g. cbn [scan_mtl].
    change (IStream.extract_string EmptyString (IStream.of_string (String c line)))
      with (read_prefix (String c line)).
    rewrite (read_prefix_leading_space c line H). reflexivity.
Qed.

End LoaderEdgeCases.

Lemma X1_witness :
  ifstream_lines (sample_env texture_files 0) "nowhere.obj" = [] /\
  getTriangles (load_sample texture_files 0 "nowhere.obj" 1) = Some [].
Proof.
  assert (H : ifstream_lines (sample_env texture_files 0) "nowhere.obj" = [])
    by reflexivity.
  split; [exact H|].
  exact (proj2 (X1_unreadable_file_gives_empty_loader read_decimal
                  (sample_env texture_files 0) "nowhere.obj" 1 process_start H)).
Defined.

Lemma X3_witness :
  load_line read_decimal (sample_env [] 0) "" 0 "	v 1 2 3"
    (mkLoadState [] [] [] [] EmptyString EmptyString process_start) =
  load_line read_decimal (sample_env [] 0) "" 0 "v 1 2 3"
    (mkLoadState [] [] [] [] EmptyString EmptyString process_start).
Proof.
  exact (proj1 (X3_indentation_is_ignored read_decimal (sample_env [] 0)
                  "009"%char "v 1 2 3" eq_refl) "" 0%nat _).
Defined.

(* ================================================================= *)
(** * Reading numerals and corners *)

Lemma digit_facts (c : ascii) :
  isdigit c = true ->
  isspace c = false /\ Ascii.eqb c "/" = false /\
  Ascii.eqb c "-" = false /\ Ascii.eqb c "+" = false /\
  0 <= digit_val c <= 9.
Proof.
  destruct c as [[] [] [] [] [] [] [] []]; intros H;
    try discriminate H; vm_compute; intuition discriminate.
Qed.

Lemma span_digits (ds rest : string) :
  all_digits ds = true -> head_not_digit rest = true ->
  span isdigit (ds ++ rest) = (ds, rest).
Proof.
  intros Hd Hr. induction ds as [|c ds IH].
  - simpl. destruct rest as [|c r]; [reflexivity|].
    simpl in Hr. apply negb_true_iff in Hr.
    change (span isdigit (String c r))
      with (if isdigit c then let (a, b) := span isdigit r in (String c a, b)
            else (EmptyString, String c r)).
    rewrite Hr. reflexivity.
  - simpl in Hd. apply andb_true_iff in Hd as [Hc Hd].
    change (span isdigit (String c ds ++ rest)%string)
      with (if isdigit c
            then let (a, b) := span isdigit (ds ++ rest)%string in (String c a, b)
            else (EmptyString, String c (ds ++ rest)%string)).
    rewrite Hc, (IH Hd). reflexivity.
Qed.

Lemma digits_val_nonneg (ds : string) :
  all_digits ds = true -> forall acc, 0 <= acc -> 0 <= digits_val acc ds.
Proof.
  induction ds as [|c ds IH]; intros Hd acc Ha; cbn [digits_val]; [exact Ha|].
  cbn [all_digits] in Hd. apply andb_true_iff in Hd as [Hc Hd].
  apply IH; [exact Hd|].
  pose proof (digit_facts c Hc) as (_ & _ & _ & _ & D).
  lia.
Qed.

Lemma extract_int_numeral (old : Z) (ds rest : string) :
  is_numeral ds = true -> digits_val 0 ds <= INT_MAX ->
  head_not_digit rest = true ->
  IStream.extract_int old (IStream.mk (ds ++ rest) false false) =
  (digits_val 0 ds, IStream.mk rest (is_empty rest) false).
Proof.
  unfold is_numeral. intros Hn Hmax Hr.
  apply andb_true_iff in Hn as [Hne Hd].
  pose proof (span_digits ds rest Hd Hr) as Sp.
  pose proof (digits_val_nonneg ds Hd 0 ltac:(lia)) as Pos.
  destruct ds as [|c ds]; [discriminate|]. clear Hne.
  pose proof Hd as Hd'. simpl in Hd'. apply andb_true_iff in Hd' as [Hc _].
  pose proof (digit_facts c Hc) as (Sc & _ & Mi & Pl & _).
  unfold IStream.extract_int, IStream.bind, IStream.sentry.
  cbn [IStream.good IStream.buf IStream.eofbit IStream.failbit negb andb].
  change (span isspace (String c ds ++ rest)%string)
    with (if isspace c
          then let (a, b) := span isspace (ds ++ rest)%string in (String c a, b)
          else (EmptyString, String c (ds ++ rest)%string)).
  rewrite Sc. cbn [snd is_empty IStream.buf].
  assert (Sg : (match String c (ds ++ rest)%string with
                | String "-"%char r => (true, r)
                | String "+"%char r => (false, r)
                | b => (false, b)
                end) = (false, String c (ds ++ rest)%string)).
  { clear -Hc. destruct c as [[] [] [] [] [] [] [] []];
      try discriminate Hc; reflexivity. }
  rewrite Sg.
  change (String c (ds ++ rest)%string) with (String c ds ++ rest)%string.
  rewrite Sp. cbn [is_empty].
  assert (L1 : (digits_val 0 (String c ds) <? INT_MIN) = false)
    by (apply Z.ltb_ge; unfold INT_MIN; lia).
  assert (L2 : (INT_MAX <? digits_val 0 (String c ds)) = false)
    by (apply Z.ltb_ge; lia).
  rewrite L1, L2. reflexivity.
Qed.

Lemma extract_int_skips_blank (old : Z) (c : ascii) (s : string) :
  isspace c = true ->
  IStream.extract_int old (IStream.mk (String c s) false false) =
  IStream.extract_int old (IStream.mk s false false).
Proof.
  intros H. unfold IStream.extract_int, IStream.bind, IStream.sentry.
  cbn [IStream.good IStream.buf IStream.eofbit IStream.failbit negb andb].
  change (span isspace (String c s))
    with (if isspace c
          then let (a, b) := span isspace s in (String c a, b)
          else (EmptyString, String c s)).
  rewrite H. destruct (span isspace s) as [a b]. reflexivity.
Qed.

Lemma peek_slash (r : string) :
  IStream.peek (IStream.mk (String "/" r) false false) =
  (Some "/"%char, IStream.mk (String "/" r) false false).
Proof. reflexivity. Qed.

Lemma get_slash (r : string) :
  IStream.get (IStream.mk (String "/" r) false false) =
  (Some "/"%char, IStream.mk r false false).
Proof. reflexivity. Qed.

Lemma peek_numeral (ds rest : string) :
  is_numeral ds = true ->
  exists c, IStream.peek (IStream.mk (ds ++ rest) false false) =
            (Some c, IStream.mk (ds ++ rest) false false) /\
            is_slash (Some c) = false.
Proof.
  unfold is_numeral. intros H. apply andb_true_iff in H as [Hne Hd].
  destruct ds as [|c ds]; [discriminate|].
  simpl in Hd. apply andb_true_iff in Hd as [Hc _].
  exists c. split; [reflexivity|].
  apply (digit_facts c Hc).
Qed.

Lemma wrap32_small (z : Z) : INT_MIN <= z <= INT_MAX -> wrap32 z = z.
Proof.
  unfold wrap32, INT_MIN, INT_MAX. intros H.
  rewrite Z.mod_small by lia. lia.
Qed.

Lemma pre_decr_numeral (ds : string) :
  is_numeral ds = true -> digits_val 0 ds <= INT_MAX ->
  pre_decr (digits_val 0 ds) = index_of_numeral ds.
Proof.
  unfold is_numeral, pre_decr, index_of_numeral. intros H M.
  apply andb_true_iff in H as [_ Hd].
  pose proof (digits_val_nonneg ds Hd 0 ltac:(lia)).
  apply wrap32_small. unfold INT_MIN, INT_MAX in *. lia.
Qed.

Lemma read_corner_full (i : nat) (face : Face.t) (a b c rest : string) :
  (i < 3)%nat ->
  is_numeral a = true -> is_numeral b = true -> is_numeral c = true ->
  digits_val 0 a <= INT_MAX -> digits_val 0 b <= INT_MAX ->
  digits_val 0 c <= INT_MAX ->
  head_not_digit rest = true ->
  read_corner i face
    (IStream.mk (String " " (a ++ "/" ++ b ++ "/" ++ c ++ rest)) false false) =
  (set_corner face i (index_of_numeral a) (index_of_numeral b)
     (index_of_numeral c),
   IStream.mk rest (is_empty rest) false).
Proof.
  intros Hi Ha Hb Hc Ma Mb Mc Hr.
  unfold read_corner, IStream.bind.
  rewrite extract_int_skips_blank by reflexivity.
  rewrite (extract_int_numeral _ a) by (assumption || reflexivity).
  change ("/" ++ b ++ "/" ++ c ++ rest)%string
    with (String "/" (b ++ "/" ++ c ++ rest)%string).
  cbn [is_empty].
  rewrite peek_slash. cbn [is_slash Ascii.eqb Bool.eqb andb].
  rewrite get_slash.
  destruct (peek_numeral b ("/" ++ c ++ rest)%string Hb) as (c0 & Hp & Hs).
  rewrite Hp, Hs. cbn [negb].
  rewrite (extract_int_numeral _ b) by (assumption || reflexivity).
  change ("/" ++ c ++ rest)%string with (String "/" (c ++ rest)%string).
  cbn [is_empty]. unfold IStream.ret at 1.
  rewrite peek_slash. cbn [is_slash Ascii.eqb Bool.eqb andb].
  rewrite get_slash.
  rewrite (extract_int_numeral _ c) by assumption.
  unfold IStream.ret at 1.
  unfold IStream.ret. f_equal.
  rewrite <- (pre_decr_numeral a), <- (pre_decr_numeral b),
    <- (pre_decr_numeral c) by assumption.
  destruct face as [[[p0 p1] p2] [[t0 t1] t2] [[n0 n1] n2]].
  destruct i as [|[|[|i]]]; [reflexivity | reflexivity | reflexivity | lia].
Qed.

(** X4.  A face line whose three corners are written in full, [a/b/c] with
    decimal numerals that fit an [int], is stored with every index one less
    than written (so a written 0 becomes -1), whatever the Face held before;
    text after the third corner, a fourth corner for instance, is not
    read. *)
Theorem X4_full_face_line (junk : Face.t)
    (a1 b1 c1 a2 b2 c2 a3 b3 c3 rest : string) :
  forallb is_numeral [a1; b1; c1; a2; b2; c2; a3; b3; c3] = true ->
  forallb (fun s => digits_val 0 s <=? INT_MAX)
    [a1; b1; c1; a2; b2; c2; a3; b3; c3] = true ->
  head_not_digit rest = true ->
  parse_face_line junk
    ("f " ++ a1 ++ "/" ++ b1 ++ "/" ++ c1 ++ " "
          ++ a2 ++ "/" ++ b2 ++ "/" ++ c2 ++ " "
          ++ a3 ++ "/" ++ b3 ++ "/" ++ c3 ++ rest) =
  Face.mk (index_of_numeral a1, index_of_numeral a2, index_of_numeral a3)
    (index_of_numeral b1, index_of_numeral b2, index_of_numeral b3)
    (index_of_numeral c1, index_of_numeral c2, index_of_numeral c3).
Proof.
  intros N M Hr. cbn [forallb] in N, M.
  repeat (apply andb_true_iff in N as [?N N]).
  repeat (apply andb_true_iff in M as [?M M]).
  repeat match goal with H : (_ <=? _) = true |- _ => apply Z.leb_le in H end.
  unfold parse_face_line.
  change (read_prefix ("f " ++ ?x)%string)
    with ("f", IStream.mk (String " " x) false false).
  cbn [snd]. unfold read_face, IStream.bind.
  rewrite read_corner_full by (assumption || reflexivity || lia).
  change (" " ++ ?x)%string with (String " " x).
  cbn [is_empty].
  rewrite read_corner_full by (assumption || reflexivity || lia).
  change (" " ++ ?x)%string with (String " " x).
  cbn [is_empty].
  rewrite read_corner_full by (assumption || reflexivity || lia).
  destruct junk as [[[p0 p1] p2] [[t0 t1] t2] [[n0 n1] n2]]. reflexivity.
Qed.

Lemma X4_witness :
  parse_face_line (Face.mk (7, 7, 7) (8, 8, 8) (9, 9, 9))
    "f 12/5/3 1/0/007 40/41/42 13/13/13" =
  Face.mk (11, 0, 39) (4, -1, 40) (2, 6, 41).
Proof.
  exact (X4_full_face_line (Face.mk (7, 7, 7) (8, 8, 8) (9, 9, 9))
           "12" "5" "3" "1" "0" "007" "40" "41" "42" " 13/13/13"
           eq_refl eq_refl eq_refl).
Defined.

(* ================================================================= *)
(** * Names in [mtllib] and [map_Kd] lines *)

Section Names.

Variable reader : string -> float * bool * string.
Variable env : Env.

Lemma span_token_then (m : string) (c : ascii) (r : string) :
  no_space m = true -> isspace c = true ->
  span (fun c => negb (isspace c)) (m ++ String c r) = (m, String c r).
Proof.
  intros Hm Hc. induction m as [|c0 m IH].
  - cbn [String.append].
    change (span (fun c => negb (isspace c)) (String c r))
      with (if negb (isspace c)
            then let (a, b) := span (fun c => negb (isspace c)) r in (String c a, b)
            else (EmptyString, String c r)).
    rewrite Hc. reflexivity.
  - cbn [no_space] in Hm. apply andb_true_iff in Hm as [H0 Hm].
    cbn [String.append].
    change (span (fun c => negb (isspace c)) (String c0 (m ++ String c r)%string))
      with (if negb (isspace c0)
            then let (a, b) := span (fun c => negb (isspace c)) (m ++ String c r)
                 in (String c0 a, b)
            else (EmptyString, String c0 (m ++ String c r)%string)).
    rewrite H0, (IH Hm). reflexivity.
Qed.

(** Reading a token that follows one blank and is followed by white space. *)
Lemma extract_string_token_then (old m : string) (c : ascii) (r : string) :
  is_token m = true -> isspace c = true ->
  IStream.extract_string old
    (IStream.mk (String " " (m ++ String c r)) false false) =
  (m, IStream.mk (String c r) false false).
Proof.
  unfold is_token. destruct m as [|c0 m]; [discriminate|].
  intros H Hc. simpl in H. pose proof H as Hm.
  apply andb_true_iff in H as [H0 _]. apply negb_true_iff in H0.
  unfold IStream.extract_string, IStream.bind, IStream.sentry.
  cbn [IStream.good IStream.buf IStream.eofbit IStream.failbit negb andb].
  change (String c0 m ++ String c r)%string
    with (String c0 (m ++ String c r)%string).
  rewrite (span_blank c0 _ H0).
  cbn [snd is_empty IStream.buf].
  change (no_space (String c0 m) = true) in Hm.
  change (String c0 (m ++ String c r)%string)
    with (String c0 m ++ String c r)%string.
  rewrite (span_token_then _ c r Hm Hc). reflexivity.
Qed.

Lemma append_empty (s : string) : (s ++ "")%string = s.
Proof. induction s as [|c s IH]; simpl; [|rewrite IH]; reflexivity. Qed.

(** X5.  Only the first token after [mtllib] or [map_Kd] is taken as the
    name: white space and anything behind it, a carriage return at the end
    of the line for instance, changes nothing. *)
Theorem X5_text_after_a_name_is_ignored (m tail : string) :
  is_token m = true -> head_is_space tail = true ->
  (forall d n st,
     load_line reader env d n ("mtllib " ++ m ++ tail) st =
     load_line reader env d n ("mtllib " ++ m) st) /\
  (forall d rest t g,
     scan_mtl d (("map_Kd " ++ m ++ tail)%string :: rest) t g =
     scan_mtl d (("map_Kd " ++ m)%string :: rest) t g).
Proof.
  intros Hm Ht. destruct tail as [|c r].
  - rewrite append_empty. split; reflexivity.
  - cbn [head_is_space] in Ht. split.
    + intros d n st. rewrite (load_line_mtllib reader env d n m st Hm).
      unfold load_line. rewrite read_prefix_mtllib.
      cbn -[scan_mtl IStream.extract_string ifstream_lines String.append].
      rewrite extract_string_token_then by assumption. reflexivity.
    + intros d rest t g.
      cbn -[IStream.extract_string String.append].
      change (IStream.extract_string EmptyString
                (IStream.of_string ("map_Kd " ++ ?x)))
        with (read_prefix ("map_Kd " ++ x)).
      rewrite !read_prefix_map_Kd.
      cbn -[IStream.extract_string String.append].
      rewrite extract_string_token_then by assumption.
      rewrite extract_string_token by assumption. reflexivity.
Qed.

Lemma all_space_span (ws : string) :
  all_space ws = true ->
  span isspace ws = (ws, EmptyString) /\
  span (fun c => negb (isspace c)) ws = (EmptyString, ws).
Proof.
  intros H. split.
  - induction ws as [|c ws IH]; [reflexivity|].
    cbn [all_space] in H. apply andb_true_iff in H as [Hc H].
    change (span isspace (String c ws))
      with (if isspace c then let (a, b) := span isspace ws in (String c a, b)
            else (EmptyString, String c ws)).
    rewrite Hc, (IH H). reflexivity.
  - destruct ws as [|c ws]; [reflexivity|].
    cbn [all_space] in H. apply andb_true_iff in H as [Hc _].
    change (span (fun c => negb (isspace c)) (String c ws))
      with (if negb (isspace c)
            then let (a, b) := span (fun c => negb (isspace c)) ws in (String c a, b)
            else (EmptyString, String c ws)).
    rewrite Hc. reflexivity.
Qed.

(** A [map_Kd] line with no name: the local keeps its value. *)
Lemma scan_mtl_nameless (d : string) (ws : string) (rest : list string)
    (t : string) (g : Globals) :
  all_space ws = true ->
  scan_mtl d (("map_Kd" ++ ws)%string :: rest) t g =
  (t, mkGlobals (d ++ "/" ++ t)).
Proof.
  intros H. destruct (all_space_span ws H) as [S1 S2].
  cbn [scan_mtl].
  assert (P : IStream.extract_string EmptyString
                (IStream.of_string ("map_Kd" ++ ws)) =
              ("map_Kd"%string, IStream.mk ws (is_empty ws) false)).
  { unfold IStream.extract_string, IStream.bind, IStream.sentry,
      IStream.of_string.
    cbn [IStream.good IStream.buf IStream.eofbit IStream.failbit negb andb].
    change (span isspace ("map_Kd" ++ ws))
      with (EmptyString, ("map_Kd" ++ ws)%string).
    cbn [snd is_empty String.append IStream.buf].
    change (String "m" (String "a" (String "p" (String "_"
              (String "K" (String "d" ws))))))
      with ("map_Kd" ++ ws)%string.
    assert (Sp : span (fun c => negb (isspace c)) ("map_Kd" ++ ws) =
                 ("map_Kd"%string, ws)).
    { destruct ws as [|c ws'].
      - reflexivity.
      - cbn [all_space] in H. apply andb_true_iff in H as [Hc _].
        apply (span_token_then "map_Kd" c ws' eq_refl Hc). }
    rewrite Sp. reflexivity. }
  rewrite P. cbn [String.eqb Ascii.eqb Bool.eqb andb].
  assert (Q : fst (IStream.extract_string t (IStream.mk ws (is_empty ws) false)) = t).
  { unfold IStream.extract_string, IStream.bind, IStream.sentry.
    cbn [IStream.good IStream.buf IStream.eofbit IStream.failbit].
    destruct ws as [|c ws]; [reflexivity|].
    cbn [is_empty negb andb]. rewrite S1. reflexivity. }
  rewrite Q. reflexivity.
Qed.

(** X6.  A [map_Kd] line without a name still ends the scan of the material
    file: the texture path becomes the directory followed by '/' and by the
    name an earlier [mtllib] line of the same file had found, if any.  For a
    file whose only [mtllib] line leads to such a material file the texture
    path is the directory followed by '/'. *)
Theorem X6_map_Kd_without_name (d ws : string) (mpre mpost : list string)
    (t : string) (g : Globals) :
  all_space ws = true ->
  Forall (fun l => has_prefix "map_Kd" l = false) mpre ->
  scan_mtl d (mpre ++ ("map_Kd" ++ ws)%string :: mpost) t g =
    (t, mkGlobals (d ++ "/" ++ t)) /\
  (forall filename type m pre post,
     d = directory_of filename ->
     is_token m = true ->
     ifstream_lines env filename = pre ++ ("mtllib " ++ m)%string :: post ->
     Forall (fun l => has_prefix "mtllib" l = false) pre ->
     Forall (fun l => has_prefix "mtllib" l = false) post ->
     ifstream_lines env (d ++ "/" ++ m) =
       mpre ++ ("map_Kd" ++ ws)%string :: mpost ->
     getTextureName (fst (ObjLoader_new reader env filename type g)) =
     (d ++ "/")%string).
Proof.
  intros Hws F.
  assert (S : forall t' g', scan_mtl d (mpre ++ ("map_Kd" ++ ws)%string :: mpost) t' g'
                            = (t', mkGlobals (d ++ "/" ++ t'))).
  { intros t' g'. induction F as [|l mpre Hl F IH].
    - apply scan_mtl_nameless, Hws.
    - cbn -[IStream.extract_string String.append].
      unfold has_prefix, read_prefix in Hl.
      destruct (IStream.extract_string EmptyString (IStream.of_string l))
        as [p iss].
      simpl in Hl. rewrite Hl. exact IH. }
  split; [apply S|].
  intros filename type m pre post -> Hm Hl Hpre Hpost Hmtl.
  unfold getTextureName, ObjLoader_new, load.
  cbn -[load_lines directory_of ifstream_lines String.append].
  rewrite Hl, load_lines_app.
  cbn -[load_line directory_of ifstream_lines String.append].
  rewrite load_lines_keep_global by assumption.
  rewrite load_line_mtllib by assumption.
  rewrite Hmtl, S.
  cbn -[load_lines directory_of ifstream_lines String.append].
  assert (E : ls_textureName
                (load_lines reader env (directory_of filename) 0 pre
                   (mkLoadState [] [] [] [] EmptyString EmptyString g))
              = EmptyString).
  { assert (G : forall st n,
              ls_textureName (load_lines reader env (directory_of filename) n pre st)
              = ls_textureName st).
    { clear -Hpre.
      induction Hpre as [|l pre Hl Hpre IH]; intros st n; [reflexivity|].
      cbn [load_lines]. rewrite IH.
      unfold load_line. unfold has_prefix in Hl.
      destruct (read_prefix l) as [p iss]. simpl in Hl. rewrite Hl.
      destruct (String.eqb p "v"), (String.eqb p "vt"), (String.eqb p "vn"),
               (String.eqb p "f"); reflexivity. }
    rewrite G. reflexivity. }
  rewrite E. reflexivity.
Qed.

End Names.

Lemma X5_witness :
  load_line read_decimal (sample_env texture_files 0) "assets" 1
    ("mtllib m.mtl" ++ String "013" EmptyString)
    (mkLoadState [] [] [] [] EmptyString EmptyString process_start) =
  load_line read_decimal (sample_env texture_files 0) "assets" 1
    "mtllib m.mtl"
    (mkLoadState [] [] [] [] EmptyString EmptyString process_start).
Proof.
  exact (proj1 (X5_text_after_a_name_is_ignored read_decimal
                  (sample_env texture_files 0) "m.mtl"
                  (String "013" EmptyString) eq_refl eq_refl)
           "assets" 1%nat _).
Defined.

Lemma X6_witness :
  getTextureName
    (load_sample [("a/o.obj", unlines ["mtllib n.mtl"; "v 0 0 0"]);
                  ("a/n.mtl", unlines ["newmtl n"; "map_Kd"; "map_Kd w.png"])]
       0 "a/o.obj" 1) = "a/".
Proof.
  exact (proj2 (X6_map_Kd_without_name read_decimal
                  (sample_env [("a/o.obj", unlines ["mtllib n.mtl"; "v 0 0 0"]);
                               ("a/n.mtl",
                                unlines ["newmtl n"; "map_Kd"; "map_Kd w.png"])] 0)
                  "a" EmptyString ["newmtl n"] ["map_Kd w.png"]
                  EmptyString process_start eq_refl
                  ltac:(repeat constructor))
           "a/o.obj" 1 "n.mtl" [] ["v 0 0 0"]
           eq_refl eq_refl eq_refl ltac:(constructor)
           ltac:(repeat constructor) eq_refl).
Defined.

(* ================================================================= *)
(** * LoadShaderAsString *)

Lemma append_assoc (a b c : string) :
  ((a ++ b) ++ c)%string = (a ++ (b ++ c))%string.
Proof. induction a as [|x a IH]; simpl; [|rewrite IH]; reflexivity. Qed.

Lemma fold_left_unlines (ls : list string) :
  forall acc,
    fold_left (fun result line => (result ++ (line ++ nl))%string) ls acc =
    (acc ++ unlines ls)%string.
Proof.
  induction ls as [|l ls IH]; intros acc; cbn [fold_left unlines].
  - rewrite append_empty. reflexivity.
  - rewrite IH, !append_assoc. reflexivity.
Qed.

Lemma getlines_nil (s : string) : getlines s = [] -> s = EmptyString.
Proof.
  destruct s as [|c r]; [reflexivity|]. simpl.
  destruct (Ascii.eqb c "010"); [discriminate|].
  destruct (getlines r); discriminate.
Qed.

Lemma unlines_getlines (s : string) :
  unlines (getlines s) =
  if lacks_final_newline s then (s ++ nl)%string else s.
Proof.
  induction s as [|c r IH]; [reflexivity|].
  cbn [getlines]. destruct (Ascii.eqb_spec c "010") as [->|Hc].
  - cbn [unlines]. rewrite IH.
    destruct r as [|c' r']; [reflexivity|].
    change (lacks_final_newline (String "010" (String c' r')))
      with (lacks_final_newline (String c' r')).
    destruct (lacks_final_newline (String c' r')); reflexivity.
  - destruct (getlines r) as [|l ls] eqn:G.
    + apply getlines_nil in G. subst r. cbn.
      destruct (Ascii.eqb_spec c "010"); [contradiction|reflexivity].
    + destruct r as [|c' r']; [discriminate|].
      change (lacks_final_newline (String c (String c' r')))
        with (lacks_final_newline (String c' r')).
      cbn [unlines] in *.
      change (String c l ++ nl ++ unlines ls)%string
        with (String c (l ++ nl ++ unlines ls)%string).
      rewrite IH.
      destruct (lacks_final_newline (String c' r')); reflexivity.
Qed.

(** X7.  [LoadShaderAsString] returns the text of the file with a final
    newline added when the text is not empty and lacks one; an empty file
    and a file that cannot be opened both give the empty string. *)
Theorem X7_LoadShaderAsString_text (env : Env) (filename : string) :
  LoadShaderAsString env filename =
  match fs env filename with
  | None => EmptyString
  | Some content =>
      if lacks_final_newline content then (content ++ nl)%string else content
  end.
Proof.
  unfold LoadShaderAsString. destruct (fs env filename) as [content|];
    [|reflexivity].
  rewrite fold_left_unlines. apply unlines_getlines.
Qed.

(* ================================================================= *)
(** * GenerateModelBufferData *)

Lemma triangle_floats_length (m : Modifiers) (tr : Triangle.t) :
  length (triangle_floats m tr) = 24%nat.
Proof. reflexivity. Qed.

Lemma mesh_floats_length (m : Modifiers) (mesh : list Triangle.t) :
  length (mesh_floats m mesh) = (24 * length mesh)%nat.
Proof.
  unfold mesh_floats. induction mesh as [|tr mesh IH]; [reflexivity|].
  cbn [map concat]. rewrite length_app, IH, triangle_floats_length.
  cbn [length]. lia.
Qed.

Lemma push_mesh_eq (m : Modifiers) (mesh : list Triangle.t) :
  forall data, push_mesh m mesh data = data ++ mesh_floats m mesh.
Proof.
  unfold mesh_floats. induction mesh as [|tr mesh IH]; intros data.
  - cbn. rewrite app_nil_r. reflexivity.
  - cbn [push_mesh map concat]. rewrite IH, <- app_assoc. reflexivity.
Qed.

Lemma getTriangles_length (o : ObjLoader.t) (mesh : list Triangle.t) :
  getTriangles o = Some mesh -> length mesh = length (ObjLoader.faces o).
Proof.
  intros H. apply getTriangles_Some in H. symmetry. eapply Forall2_length, H.
Qed.

Lemma getTriangles_defined (o : ObjLoader.t) :
  match getTriangles o with
  | Some _ => loader_in_range o = true
  | None => loader_in_range o = false
  end.
Proof.
  unfold loader_in_range, getTriangles.
  destruct (forallb (face_in_range o) (ObjLoader.faces o)) eqn:R.
  - destruct (getTriangles_loop_in_range o _ [] R) as [ts ->]. reflexivity.
  - rewrite getTriangles_loop_out_of_range by assumption. reflexivity.
Qed.

Lemma push_loaders_app (s : Game) (pre post : list ObjLoader.t) :
  forall data,
    push_loaders s (pre ++ post) data =
    match push_loaders s pre data with
    | None => None
    | Some d => push_loaders s post d
    end.
Proof.
  induction pre as [|o pre IH]; intros data; [reflexivity|].
  cbn [app push_loaders]. destruct (getTriangles o); [apply IH|reflexivity].
Qed.

Lemma push_loaders_spec (s : Game) (loaders : list ObjLoader.t) :
  forall data,
    match push_loaders s loaders data with
    | Some r =>
        forallb loader_in_range loaders = true /\
        (exists tail, r = data ++ tail /\
                      length tail = (24 * total_faces loaders)%nat)
    | None => forallb loader_in_range loaders = false
    end.
Proof.
  induction loaders as [|o loaders IH]; intros data.
  - cbn. split; [reflexivity|]. exists []. rewrite app_nil_r. auto.
  - cbn [push_loaders forallb].
    change (total_faces (o :: loaders))
      with (length (ObjLoader.faces o) + total_faces loaders)%nat.
    pose proof (getTriangles_defined o) as D.
    destruct (getTriangles o) as [mesh|] eqn:G; [|rewrite D; reflexivity].
    rewrite D. cbn [andb].
    specialize (IH (push_mesh (modifiers_of s (ObjLoader.modelType o)) mesh data)).
    destruct (push_loaders s loaders _) as [r|]; [|exact IH].
    destruct IH as (R & tail & -> & L). split; [exact R|].
    rewrite push_mesh_eq, <- app_assoc. eexists. split; [reflexivity|].
    rewrite length_app, mesh_floats_length, L, (getTriangles_length o mesh G).
    lia.
Qed.

(** X8.  [GenerateModelBufferData] has a defined result exactly when every
    index of every face of every loader is inside its pool.  It then hands
    on 24 floats per face, 8 per corner; the count it stores in
    [gFloorTriangles] is that number of floats, and the byte size four times
    as much. *)
Theorem X8_buffer_size (s : Game) (loaders : list ObjLoader.t) :
  match GenerateModelBufferData s loaders with
  | Some b =>
      forallb loader_in_range loaders = true /\
      length (vertexDataFloor b) = (24 * total_faces loaders)%nat /\
      gFloorTriangles b = (24 * total_faces loaders)%nat /\
      bufferBytes b = (96 * total_faces loaders)%nat
  | None => forallb loader_in_range loaders = false
  end.
Proof.
  unfold GenerateModelBufferData.
  pose proof (push_loaders_spec s loaders []) as P.
  destruct (push_loaders s loaders []) as [r|]; [|exact P].
  destruct P as (R & tail & -> & L). cbn [vertexDataFloor gFloorTriangles
    bufferBytes app]. rewrite L. repeat split; try assumption; lia.
Qed.

Lemma nth_error_mesh_floats (m : Modifiers) (mesh : list Triangle.t) :
  forall j tr q,
    nth_error mesh j = Some tr -> (q < 24)%nat ->
    nth_error (mesh_floats m mesh) (24 * j + q) =
    nth_error (triangle_floats m tr) q.
Proof.
  unfold mesh_floats.
  induction mesh as [|t0 mesh IH]; intros j tr q Hj Hq.
  - destruct j; discriminate.
  - cbn [map concat]. destruct j as [|j]; cbn [nth_error] in Hj.
    + injection Hj as ->. rewrite Nat.mul_0_r, Nat.add_0_l.
      apply nth_error_app1. rewrite triangle_floats_length. exact Hq.
    + rewrite nth_error_app2 by (rewrite triangle_floats_length; lia).
      rewrite triangle_floats_length.
      replace (24 * S j + q - 24)%nat with (24 * j + q)%nat by lia.
      apply IH; assumption.
Qed.

Lemma nth_error_triangle_floats (m : Modifiers) (tr : Triangle.t) (i : nat) :
  (i < 3)%nat ->
  nth_error (triangle_floats m tr) (8 * i + 2) =
    Some (Vertex.z (aget (Triangle.vertices tr) i)) /\
  nth_error (triangle_floats m tr) (8 * i + 3) =
    Some (Normal.nx (aget (Triangle.normals tr) i)) /\
  nth_error (triangle_floats m tr) (8 * i + 4) =
    Some (Normal.ny (aget (Triangle.normals tr) i)) /\
  nth_error (triangle_floats m tr) (8 * i + 5) =
    Some (Normal.nz (aget (Triangle.normals tr) i)) /\
  nth_error (triangle_floats m tr) (8 * i + 7) =
    Some (TextureCoords.v (aget (Triangle.textures tr) i)).
Proof.
  intros Hi. destruct i as [|[|[|i]]]; [| | |lia]; repeat split; reflexivity.
Qed.

(** X9.  The floats of the loaders follow one another in the order of the
    loaders, triangles in mesh order, corners in corner order, eight floats
    per corner; of these the third is the position's z, the fourth to sixth
    the normal and the eighth the texture's v, each copied unchanged. *)
Theorem X9_buffer_layout (s : Game) (pre post : list ObjLoader.t)
    (o : ObjLoader.t) (b : BufferData) (mesh : list Triangle.t)
    (j i : nat) (tr : Triangle.t) :
  GenerateModelBufferData s (pre ++ o :: post) = Some b ->
  getTriangles o = Some mesh ->
  nth_error mesh j = Some tr -> (i < 3)%nat ->
  let base := (24 * total_faces pre + 24 * j + 8 * i)%nat in
  nth_error (vertexDataFloor b) (base + 2) =
    Some (Vertex.z (aget (Triangle.vertices tr) i)) /\
  nth_error (vertexDataFloor b) (base + 3) =
    Some (Normal.nx (aget (Triangle.normals tr) i)) /\
  nth_error (vertexDataFloor b) (base + 4) =
    Some (Normal.ny (aget (Triangle.normals tr) i)) /\
  nth_error (vertexDataFloor b) (base + 5) =
    Some (Normal.nz (aget (Triangle.normals tr) i)) /\
  nth_error (vertexDataFloor b) (base + 7) =
    Some (TextureCoords.v (aget (Triangle.textures tr) i)).
Proof.
  unfold GenerateModelBufferData. intros H G Hj Hi.
  set (base := (24 * total_faces pre + 24 * j + 8 * i)%nat).
  destruct (push_loaders s (pre ++ o :: post) []) as [r|] eqn:P; [|discriminate].
  injection H as <-. cbn [vertexDataFloor].
  rewrite push_loaders_app in P.
  pose proof (push_loaders_spec s pre []) as Ppre.
  destruct (push_loaders s pre []) as [d|]; [|discriminate].
  destruct Ppre as (_ & tail & -> & Lpre). cbn [app] in P.
  cbn [push_loaders] in P. rewrite G, push_mesh_eq in P.
  pose proof (push_loaders_spec s post
                (tail ++ mesh_floats (modifiers_of s (ObjLoader.modelType o)) mesh))
    as Ppost.
  rewrite P in Ppost. destruct Ppost as (_ & tail' & -> & _).
  assert (Q : forall q, (q < 8)%nat ->
            nth_error ((tail ++ mesh_floats (modifiers_of s (ObjLoader.modelType o))
                                   mesh) ++ tail') (base + q) =
            nth_error (triangle_floats (modifiers_of s (ObjLoader.modelType o)) tr)
              (8 * i + q)).
  { intros q Hq. subst base.
    assert (Lj : (j < length mesh)%nat) by (apply nth_error_Some; congruence).
    pose proof (mesh_floats_length (modifiers_of s (ObjLoader.modelType o)) mesh).
    rewrite <- app_assoc.
    rewrite nth_error_app2 by lia. rewrite Lpre.
    replace (24 * total_faces pre + 24 * j + 8 * i + q - 24 * total_faces pre)%nat
      with (24 * j + (8 * i + q))%nat by lia.
    rewrite nth_error_app1 by lia.
    apply nth_error_mesh_floats; [assumption|lia]. }
  rewrite !Q by lia.
  apply nth_error_triangle_floats, Hi.
Qed.

Lemma modifiers_of_same (s s' : Game) (modelType : Z) :
  same_modifiers s s' -> modifiers_of s modelType = modifiers_of s' modelType.
Proof.
  intros (H1 & H2 & H3 & H4). unfold modifiers_of.
  rewrite H1, H2, H3, H4. reflexivity.
Qed.

(** X10.  The buffer depends on the game state only through the dino's
    height, the cactus position, the colour offset and the remainder of the
    tick by 125: two states that agree on these give the same buffer. *)
Theorem X10_buffer_reads_four_values (s s' : Game) (loaders : list ObjLoader.t) :
  same_modifiers s s' ->
  GenerateModelBufferData s loaders = GenerateModelBufferData s' loaders.
Proof.
  intros H. unfold GenerateModelBufferData.
  assert (E : forall data, push_loaders s loaders data = push_loaders s' loaders data).
  { induction loaders as [|o loaders IH]; intros data; [reflexivity|].
    cbn [push_loaders]. destruct (getTriangles o); [|reflexivity].
    rewrite (modifiers_of_same s s' _ H). apply IH. }
  rewrite E. reflexivity.
Qed.

Lemma X9_witness :
  let o := load_sample [("w.obj", winding_obj)] 0 "w.obj" 1 in
  exists b mesh tr,
    GenerateModelBufferData initial_game [o] = Some b /\
    getTriangles o = Some mesh /\
    nth_error mesh 1 = Some tr /\
    nth_error (vertexDataFloor b) 42 =
      Some (Vertex.z (aget (Triangle.vertices tr) 2)).
Proof.
  intros o. eexists. eexists. eexists.
  split; [vm_compute; reflexivity|].
  split; [vm_compute; reflexivity|].
  split; [vm_compute; reflexivity|].
  exact (proj1 (X9_buffer_layout initial_game [] [] o _ _ 1 2 _
                  eq_refl eq_refl eq_refl (le_n 3))).
Defined.

Lemma X10_witness :
  let s' := mkGame false true true 125 7 true false true 9 8 500 0 false 0 400 in
  GenerateModelBufferData initial_game
    [load_sample [("w.obj", winding_obj)] 0 "w.obj" 3] =
  GenerateModelBufferData s'
    [load_sample [("w.obj", winding_obj)] 0 "w.obj" 3].
Proof.
  intros s'.
  apply (X10_buffer_reads_four_values initial_game s').
  repeat split; reflexivity.
Defined.

(* ================================================================= *)
(** * VertexSpecification *)

Section Frames.

Variable reader : string -> float * bool * string.
Variable env : Env.

Lemma ObjLoader_new_faces (filename : string) (type : Z) (g : Globals) :
  length (ObjLoader.faces (fst (ObjLoader_new reader env filename type g))) =
  count_prefix "f" (ifstream_lines env filename).
Proof.
  unfold ObjLoader_new, load. simpl.
  pose proof (load_lines_lengths reader env (directory_of filename)
                (ifstream_lines env filename) 0
                (mkLoadState [] [] [] [] EmptyString EmptyString g)) as H.
  simpl in H. apply H.
Qed.

Lemma ObjLoader_new_type (filename : string) (type : Z) (g : Globals) :
  ObjLoader.modelType (fst (ObjLoader_new reader env filename type g)) = type.
Proof. unfold ObjLoader_new. destruct (load _ _ _ _ _). reflexivity. Qed.

(** The texture name of a new loader is the global it leaves behind. *)
Lemma ObjLoader_new_texture_is_global (filename : string) (type : Z)
    (g : Globals) :
  getTextureName (fst (ObjLoader_new reader env filename type g)) =
  gTextureName (snd (ObjLoader_new reader env filename type g)).
Proof. unfold ObjLoader_new. destruct (load _ _ _ _ _). reflexivity. Qed.

Lemma VertexSpecification_unfold (s : Game) (g : Globals) :
  let r1 := ObjLoader_new reader env (backgroundPath s) 3 g in
  let r2 := ObjLoader_new reader env (dinoName s) 1 (snd r1) in
  let r3 := ObjLoader_new reader env "./common/objects/cactus.obj" 2 (snd r2) in
  VertexSpecification reader env s g =
  mkFrame (getTextureName (fst r1)) [fst r1; fst r2; fst r3]
    (GenerateModelBufferData s [fst r1; fst r2; fst r3]) (snd r3).
Proof.
  unfold VertexSpecification.
  destruct (ObjLoader_new reader env (backgroundPath s) 3 g) as [o1 g1].
  cbn [snd fst].
  destruct (ObjLoader_new reader env (dinoName s) 1 g1) as [o2 g2].
  cbn [snd fst].
  destruct (ObjLoader_new reader env "./common/objects/cactus.obj" 2 g2)
    as [o3 g3].
  reflexivity.
Qed.

(** X11.  A frame loads the background, the dino and the cactus, in this
    order, with types 3, 1 and 2.  When its buffer is defined it holds 24
    floats for every [f] line of the three files; it is undefined exactly
    when a face of one of them has an index outside its pool. *)
Theorem X11_frame_buffer_size (s : Game) (g : Globals) :
  let fr := VertexSpecification reader env s g in
  map ObjLoader.modelType (frameLoaders fr) = [3; 1; 2] /\
  match frameBuffer fr with
  | Some b =>
      forallb loader_in_range (frameLoaders fr) = true /\
      length (vertexDataFloor b) =
        (24 * (count_prefix "f" (ifstream_lines env (backgroundPath s))
               + count_prefix "f" (ifstream_lines env (dinoName s))
               + count_prefix "f"
                   (ifstream_lines env "./common/objects/cactus.obj")))%nat
  | None => forallb loader_in_range (frameLoaders fr) = false
  end.
Proof.
  cbv zeta. rewrite VertexSpecification_unfold. cbv zeta.
  cbn [frameLoaders frameBuffer map].
  rewrite !ObjLoader_new_type. split; [reflexivity|].
  unfold GenerateModelBufferData.
  match goal with
  | |- context [push_loaders s ?l []] =>
      pose proof (push_loaders_spec s l []) as P;
      destruct (push_loaders s l []) as [r|]; [|exact P]
  end.
  destruct P as (R & tail & -> & L). split; [exact R|].
  cbn [vertexDataFloor app]. rewrite L. unfold total_faces.
  cbn [map list_sum fold_right]. rewrite !ObjLoader_new_faces. lia.
Qed.

(** X12.  The name given to [LoadTexture] is the background loader's.  When
    the background file has no [mtllib] line, that is the name found in the
    global at the start of the frame; from the second frame on it is the
    name the previous frame's cactus file resolved. *)
Theorem X12_frame_texture_is_stale (s s' : Game) (g : Globals)
    (m tex : string) (pre post mpre mpost : list string) :
  Forall (fun l => has_prefix "mtllib" l = false)
    (ifstream_lines env (backgroundPath s')) ->
  is_token m = true -> is_token tex = true ->
  ifstream_lines env "./common/objects/cactus.obj" =
    pre ++ ("mtllib " ++ m)%string :: post ->
  Forall (fun l => has_prefix "mtllib" l = false) post ->
  ifstream_lines env ("./common/objects" ++ "/" ++ m) =
    mpre ++ ("map_Kd " ++ tex)%string :: mpost ->
  Forall (fun l => has_prefix "map_Kd" l = false) mpre ->
  loadedTexture (VertexSpecification reader env s' g) = gTextureName g /\
  loadedTexture
    (VertexSpecification reader env s'
       (frameGlobals (VertexSpecification reader env s g))) =
  ("./common/objects" ++ "/" ++ tex)%string.
Proof.
  intros Hbg Hm Ht Hl Hpost Hmtl Hmpre.
  assert (B : forall g0,
            loadedTexture (VertexSpecification reader env s' g0) = gTextureName g0).
  { intros g0. rewrite VertexSpecification_unfold. cbv zeta.
    cbn [loadedTexture]. apply texture_without_mtllib, Hbg. }
  split; [apply B|].
  rewrite B, VertexSpecification_unfold. cbv zeta. cbn [frameGlobals].
  rewrite <- ObjLoader_new_texture_is_global.
  apply (texture_resolution reader env "./common/objects/cactus.obj" 2 _
           m tex pre post mpre mpost); assumption.
Qed.

End Frames.

Lemma X12_witness :
  loadedTexture
    (VertexSpecification read_decimal (sample_env game_files 0) initial_game
       process_start) = "" /\
  loadedTexture
    (VertexSpecification read_decimal (sample_env game_files 0) initial_game
       (frameGlobals
          (VertexSpecification read_decimal (sample_env game_files 0)
             initial_game process_start))) = "./common/objects/cactus.png".
Proof.
  exact (X12_frame_texture_is_stale read_decimal (sample_env game_files 0)
           initial_game initial_game process_start "cactus.mtl" "cactus.png"
           [] (pool_lines ++ ["f 1/1/1 2/2/2 3/3/3"]) ["newmtl cactus"] []
           ltac:(repeat constructor) eq_refl eq_refl eq_refl
           ltac:(repeat constructor) eq_refl ltac:(repeat constructor)).
Defined.

(* ================================================================= *)
(** * The game loop *)

Ltac unwrap :=
  repeat match goal with
         | |- context [wrap32 ?z] =>
             rewrite (wrap32_small z) by (unfold INT_MIN, INT_MAX; lia)
         end.

Ltac fields :=
  cbn [negb andb gQuit gPolygonLine gDebug tick dayTick isJumping jumpingUp
       gameOver cactusSpeed jumpingSpeed cactusStart colorOffset isDaytime
       currentDinoHeight cactusPosition] in *.

Ltac split_tests :=
  repeat match goal with
         | |- context [Z.leb ?a ?b] => destruct (Z.leb_spec a b)
         | |- context [Z.ltb ?a ?b] => destruct (Z.ltb_spec a b)
         end.

Ltac close_bounds U Dn :=
  repeat split; intros; try discriminate; try lia;
  try (specialize (U eq_refl eq_refl); lia);
  try (specialize (Dn eq_refl eq_refl); lia).

(** The event loop and the tests of the digit, T and TAB keys leave the
    core of the game state alone. *)
Lemma on_quit_core (k : Keys) (s : Game) : game_core (on_quit k s) = game_core s.
Proof. unfold on_quit. destruct (quit_event k); reflexivity. Qed.

Lemma on_digits_core (k : Keys) (s : Game) :
  game_core (on_digits k s) = game_core s.
Proof.
  assert (Step : forall (b : bool) c x,
            game_core (if b then set_colorOffset c x else x) = game_core x)
    by (intros [] c x; reflexivity).
  unfold on_digits. cbv zeta. rewrite !Step. reflexivity.
Qed.

Lemma on_T_core (k : Keys) (s : Game) : game_core (on_T k s) = game_core s.
Proof. unfold on_T. destruct (key_T k); reflexivity. Qed.

Lemma on_TAB_core (k : Keys) (s : Game) : game_core (on_TAB k s) = game_core s.
Proof. unfold on_TAB. destruct (key_TAB k && gDebug s)%bool; reflexivity. Qed.

Lemma on_R_core (k : Keys) (s : Game) :
  game_core (on_R k s) =
  if key_R k
  then (0, 0, false, jumpingUp s, false, 5, 4, cactusStart s, true, 0, 400)
  else game_core s.
Proof. unfold on_R. destruct (key_R k); reflexivity. Qed.

Lemma on_SPACE_core (k : Keys) (s : Game) :
  game_core (on_SPACE k s) =
  if (key_SPACE k && negb (isJumping s))%bool
  then (tick s, dayTick s, true, jumpingUp s, gameOver s, cactusSpeed s,
        jumpingSpeed s, cactusStart s, isDaytime s, 1, cactusPosition s)
  else game_core s.
Proof.
  unfold on_SPACE. destruct (key_SPACE k && negb (isJumping s))%bool; reflexivity.
Qed.

Lemma Input_core (k : Keys) (s : Game) :
  game_core (Input k s) = game_core (on_SPACE k (on_R k (on_quit k s))).
Proof.
  unfold Input. rewrite on_TAB_core, on_T_core, on_digits_core. reflexivity.
Qed.

Lemma game_core_fields (s s' : Game) :
  game_core s' = game_core s ->
  tick s' = tick s /\ dayTick s' = dayTick s /\ isJumping s' = isJumping s /\
  jumpingUp s' = jumpingUp s /\ gameOver s' = gameOver s /\
  cactusSpeed s' = cactusSpeed s /\ jumpingSpeed s' = jumpingSpeed s /\
  cactusStart s' = cactusStart s /\ isDaytime s' = isDaytime s /\
  currentDinoHeight s' = currentDinoHeight s /\
  cactusPosition s' = cactusPosition s.
Proof.
  unfold game_core. intros H. injection H as -> -> -> -> -> -> -> -> -> -> ->.
  repeat split; reflexivity.
Qed.

(** The core of the state after [Input], by the R and SPACE keys. *)
Lemma Input_core_cases (k : Keys) (s : Game) :
  game_core (Input k s) =
  let c :=
    if key_R k
    then (0, 0, false, jumpingUp s, false, 5, 4, cactusStart s, true, 0, 400)
    else game_core s in
  let '(tk, dt, ij, ju, go, cs, js, st, day, h, cp) := c in
  if (key_SPACE k && negb ij)%bool
  then (tk, dt, true, ju, go, cs, js, st, day, 1, cp)
  else c.
Proof.
  rewrite Input_core, on_SPACE_core.
  destruct s as [q pl dbg tk dt ij ju go cs js st co day h cp].
  unfold on_R, on_quit, game_core.
  destruct (quit_event k), (key_R k), (key_SPACE k), ij; reflexivity.
Qed.

Lemma Input_inv (k : Keys) (s : Game) :
  game_inv s ->
  game_inv (Input k s) /\
  cactusSpeed (Input k s) <= cactusSpeed s /\
  jumpingSpeed (Input k s) <= jumpingSpeed s.
Proof.
  intros I. pose proof (Input_core_cases k s) as C.
  unfold game_inv in *.
  destruct I as (D & S & J & St & P & H & U & Dn).
  destruct (Input k s) as [q' pl' dbg' tk' dt' ij' ju' go' cs' js' st' co' day' h' cp'].
  destruct s as [q pl dbg tk dt ij ju go cs js st co day h cp].
  unfold game_core in C. fields.
  destruct (key_R k), (key_SPACE k), ij; cbn [negb andb] in C;
    injection C as -> -> -> -> -> -> -> -> -> -> ->;
    destruct ju; close_bounds U Dn.
Qed.

Lemma rem_bounds (r b : Z) : 0 <= r -> 0 < b -> 0 <= Z.rem r b < b.
Proof. intros Hr Hb. apply Z.rem_bound_pos; lia. Qed.

(** After the clock and the cactus, the jump and the collision test keep
    the bounds. *)
Ltac jump_and_collide ij ju dbg U Dn :=
  destruct ij, ju; fields; unwrap; split_tests; fields;
  try destruct dbg; fields;
  eexists; (split; [reflexivity|]); fields; close_bounds U Dn.

Lemma game_update_inv (r1 r2 : Z) (s : Game) :
  game_inv s ->
  cactusSpeed s <= 1000000000 -> jumpingSpeed s <= 1000000000 ->
  0 <= r1 -> 0 <= r2 ->
  exists s',
    game_update r1 r2 s = Some s' /\ game_inv s' /\
    cactusSpeed s' <= cactusSpeed s + 7 /\
    jumpingSpeed s' <= jumpingSpeed s + 2.
Proof.
  unfold game_inv, game_update, advance_clock, move_cactus, jump, collide.
  destruct s as [q pl dbg tk dt ij ju go cs js st co day h cp]. fields.
  intros (D & S & J & St & P & H & U & Dn) Bs Bj R1 R2.
  pose proof (rem_bounds r1 500 R1 ltac:(lia)) as Q1.
  assert (W : wrap32 (dt + 1) = dt + 1)
    by (apply wrap32_small; unfold INT_MIN, INT_MAX; lia).
  rewrite W. clear W.
  destruct (Z.eqb_spec (dt + 1) 1000) as [E|E]; fields; unwrap.
  - pose proof (rem_bounds r2 (cs + 2) R2 ltac:(lia)) as Q2.
    destruct (Z.leb_spec (cp - (cs + 2)) (- (st * 2))) as [L|L].
    + destruct (Z.eqb_spec (cs + 2) 0) as [Z0|_]; [lia|]. fields. unwrap.
      jump_and_collide ij ju dbg U Dn.
    + fields. jump_and_collide ij ju dbg U Dn.
  - pose proof (rem_bounds r2 cs R2 ltac:(lia)) as Q2.
    destruct (Z.leb_spec (cp - cs) (- (st * 2))) as [L|L].
    + destruct (Z.eqb_spec cs 0) as [Z0|_]; [lia|]. fields. unwrap.
      jump_and_collide ij ju dbg U Dn.
    + fields. jump_and_collide ij ju dbg U Dn.
Qed.

Lemma MainLoop_turn_inv (k : Keys) (r1 r2 : Z) (s : Game) :
  game_inv s ->
  cactusSpeed s <= 1000000000 -> jumpingSpeed s <= 1000000000 ->
  0 <= r1 -> 0 <= r2 ->
  exists s',
    MainLoop_turn k r1 r2 s = Some s' /\ game_inv s' /\
    cactusSpeed s' <= cactusSpeed s + 7 /\
    jumpingSpeed s' <= jumpingSpeed s + 2.
Proof.
  intros I Bs Bj R1 R2. unfold MainLoop_turn.
  destruct (Input_inv k s I) as (I' & Cs & Js).
  destruct (gameOver (Input k s)).
  - eexists. split; [reflexivity|]. split; [exact I'|]. lia.
  - destruct (game_update_inv r1 r2 (Input k s) I') as (s' & E & I2 & C2 & J2);
      try lia.
    exists s'. split; [exact E|]. split; [exact I2|]. lia.
Qed.

(** X13.  From a state within the bounds of [game_inv] (the initial state
    is one) the main loop never takes a remainder by zero and stays within
    them: the day ticker below 1000, the cactus between minus twice its
    start and its start, hence between -1798 and 899, the dino's height
    between 1 - jumpingSpeed and 151 + jumpingSpeed.  This holds for runs
    short enough to keep the speeds below 10^9, which grow by at most 7 and
    2 a turn. *)
Theorem X13_game_loop_bounds (inputs : list (Keys * Z * Z)) :
  forall s,
    game_inv s -> rand_ok inputs ->
    cactusSpeed s + 7 * Z.of_nat (length inputs) <= 1000000000 ->
    jumpingSpeed s + 2 * Z.of_nat (length inputs) <= 1000000000 ->
    exists s',
      MainLoop inputs s = Some s' /\ game_inv s' /\
      -1798 < cactusPosition s' <= 899.
Proof.
  unfold rand_ok.
  induction inputs as [|[[k r1] r2] inputs IH]; intros s I R Bs Bj.
  - exists s. split; [reflexivity|]. split; [exact I|].
    destruct I as (_ & _ & _ & St & P & _). lia.
  - cbn [MainLoop]. destruct (gQuit s).
    + exists s. split; [reflexivity|]. split; [exact I|].
      destruct I as (_ & _ & _ & St & P & _). lia.
    + inversion R as [|x l HR R' Eq]; subst. cbn in HR. destruct HR as [R1 R2].
      cbn [length] in Bs, Bj.
      destruct (MainLoop_turn_inv k r1 r2 s I) as (s1 & E & I1 & C1 & J1);
        try lia.
      rewrite E. apply IH; try assumption; lia.
Qed.

Lemma X13_witness :
  exists s',
    MainLoop [(mkKeys false false true false false false false false false false,
               17, 4);
              (no_keys, 3, 9)] initial_game = Some s' /\
    game_inv s' /\ -1798 < cactusPosition s' <= 899.
Proof.
  apply (X13_game_loop_bounds
           [(mkKeys false false true false false false false false false false,
             17, 4);
            (no_keys, 3, 9)] initial_game).
  - unfold game_inv, initial_game. cbn.
    repeat split; intros; try discriminate; lia.
  - repeat constructor; lia.
  - cbn. lia.
  - cbn. lia.
Defined.

(** X14.  Once the game is over, a turn without the R key moves nothing:
    the score, the day ticker, the cactus, the speeds and the time of day
    stay as they are, and the game stays over. *)
Theorem X14_game_over_freezes (k : Keys) (r1 r2 : Z) (s : Game) :
  gameOver s = true -> key_R k = false ->
  exists s',
    MainLoop_turn k r1 r2 s = Some s' /\
    gameOver s' = true /\ tick s' = tick s /\ dayTick s' = dayTick s /\
    cactusPosition s' = cactusPosition s /\ cactusSpeed s' = cactusSpeed s /\
    cactusStart s' = cactusStart s /\ jumpingSpeed s' = jumpingSpeed s /\
    jumpingUp s' = jumpingUp s /\ isDaytime s' = isDaytime s.
Proof.
  intros G R. exists (Input k s). unfold MainLoop_turn.
  pose proof (Input_core_cases k s) as C. rewrite R in C.
  destruct (Input k s) as [q' pl' dbg' tk' dt' ij' ju' go' cs' js' st' co' day' h' cp'].
  destruct s as [q pl dbg tk dt ij ju go cs js st co day h cp].
  unfold game_core in C. fields. subst go.
  destruct (key_SPACE k), ij; cbn [negb andb] in C;
    injection C as -> -> -> -> -> -> -> -> -> -> ->;
    repeat split; reflexivity.
Qed.

Lemma X14_witness :
  exists s',
    MainLoop_turn space_key 5 5
      (mkGame false false false 100 100 false true true 5 4 400 0 true 0 (-100))
    = Some s' /\ gameOver s' = true /\ tick s' = 100.
Proof.
  destruct (X14_game_over_freezes space_key 5 5
              (mkGame false false false 100 100 false true true 5 4 400 0 true
                 0 (-100)) eq_refl eq_refl) as (s' & E & G & T & _).
  exists s'. split; [exact E|]. split; [exact G|exact T].
Defined.

Lemma Input_keeps_jumpingUp (k : Keys) (s : Game) :
  jumpingUp (Input k s) = jumpingUp s /\
  cactusStart (Input k s) = cactusStart s.
Proof.
  pose proof (Input_core_cases k s) as C.
  destruct (Input k s) as [q' pl' dbg' tk' dt' ij' ju' go' cs' js' st' co' day' h' cp'].
  destruct s as [q pl dbg tk dt ij ju go cs js st co day h cp].
  unfold game_core in C. fields.
  destruct (key_R k), (key_SPACE k), ij; cbn [negb andb] in C;
    injection C as -> -> -> -> -> -> -> -> -> -> ->; split; reflexivity.
Qed.

Lemma advance_clock_keeps (s : Game) :
  let s' := advance_clock s in
  isJumping s' = isJumping s /\ jumpingUp s' = jumpingUp s /\
  currentDinoHeight s' = currentDinoHeight s /\ gDebug s' = gDebug s /\
  cactusPosition s' = cactusPosition s /\ cactusStart s' = cactusStart s /\
  gameOver s' = gameOver s /\
  (jumpingSpeed s' = jumpingSpeed s \/
   jumpingSpeed s' = wrap32 (jumpingSpeed s + 2)) /\
  (cactusSpeed s' = cactusSpeed s \/
   cactusSpeed s' = wrap32 (cactusSpeed s + 2)).
Proof.
  unfold advance_clock. destruct (_ =? 1000); fields; repeat split; auto.
Qed.

Lemma move_cactus_keeps (r1 r2 : Z) (s s' : Game) :
  move_cactus r1 r2 s = Some s' ->
  isJumping s' = isJumping s /\ jumpingUp s' = jumpingUp s /\
  currentDinoHeight s' = currentDinoHeight s /\ gDebug s' = gDebug s /\
  jumpingSpeed s' = jumpingSpeed s /\ gameOver s' = gameOver s.
Proof.
  unfold move_cactus. destruct (_ <=? _); [destruct (_ =? 0); [discriminate|]|];
    intros E; injection E as <-; fields; repeat split; reflexivity.
Qed.

Lemma collide_keeps (s : Game) :
  let s' := collide s in
  isJumping s' = isJumping s /\ jumpingUp s' = jumpingUp s /\
  currentDinoHeight s' = currentDinoHeight s /\
  cactusPosition s' = cactusPosition s /\ gDebug s' = gDebug s /\
  gameOver s' =
    (gameOver s ||
     ((currentDinoHeight s <? 75) && (cactusPosition s <=? -100)
      && (-150 <=? cactusPosition s) && negb (gDebug s)))%bool.
Proof.
  unfold collide.
  destruct ((currentDinoHeight s <? 75) && (cactusPosition s <=? -100)
            && (-150 <=? cactusPosition s) && negb (gDebug s))%bool;
    fields; repeat split; try reflexivity.
  - apply eq_sym, orb_true_r.
  - apply eq_sym, orb_false_r.
Qed.

(** A jump that starts while [jumpingUp] is false is over at once. *)
Lemma jump_down_from_one (s : Game) :
  isJumping s = true -> jumpingUp s = false -> currentDinoHeight s = 1 ->
  1 <= jumpingSpeed s <= 1000000002 ->
  isJumping (jump s) = false /\ jumpingUp (jump s) = true /\
  currentDinoHeight (jump s) <= 0.
Proof.
  unfold jump. intros -> -> -> Js.
  rewrite wrap32_small by (unfold INT_MIN, INT_MAX; lia).
  destruct (Z.leb_spec (1 - jumpingSpeed s) 0); [|lia].
  fields. repeat split; (reflexivity || lia).
Qed.

(** X15.  [Input] never writes [jumpingUp], so a restart during the descent
    leaves it false; the next jump then ends in the turn in which SPACE is
    pressed, with the dino at or below the ground: it never rises. *)
Theorem X15_jump_lost_after_restart (k : Keys) (r1 r2 : Z) (s s' : Game) :
  jumpingUp s = false -> isJumping s = false -> gameOver s = false ->
  key_SPACE k = true -> key_R k = false ->
  1 <= jumpingSpeed s <= 1000000000 ->
  MainLoop_turn k r1 r2 s = Some s' ->
  (forall k0 s0, jumpingUp (Input k0 s0) = jumpingUp s0) /\
  isJumping (Input k s) = true /\
  isJumping s' = false /\ jumpingUp s' = true /\ currentDinoHeight s' <= 0.
Proof.
  intros Ju Ij Go Sp R Js E.
  split; [intros k0 s0; apply Input_keeps_jumpingUp|].
  pose proof (Input_core_cases k s) as C. rewrite R, Sp in C.
  unfold MainLoop_turn in E.
  destruct (Input k s) as [q' pl' dbg' tk' dt' ij' ju' go' cs' js' st' co' day' h' cp'].
  destruct s as [q pl dbg tk dt ij ju go cs js st co day h cp].
  unfold game_core in C. fields. subst ij ju go. cbn [negb andb] in C.
  injection C as -> -> -> -> -> -> -> -> -> -> ->.
  split; [reflexivity|].
  unfold game_update in E.
  set (s0 := mkGame q' pl' dbg' tk dt true false false cs js st co' day 1 cp) in *.
  destruct (advance_clock_keeps s0) as (A1 & A2 & A3 & _ & _ & _ & _ & A4 & _).
  destruct (move_cactus r1 r2 (advance_clock s0)) as [s1|] eqn:M; [|discriminate].
  destruct (move_cactus_keeps r1 r2 _ _ M) as (M1 & M2 & M3 & _ & M4 & _).
  injection E as <-.
  destruct (collide_keeps (jump s1)) as (C1 & C2 & C3 & _).
  rewrite C1, C2, C3.
  apply jump_down_from_one.
  - rewrite M1, A1. reflexivity.
  - rewrite M2, A2. reflexivity.
  - rewrite M3, A3. reflexivity.
  - rewrite M4. subst s0. fields.
    destruct A4 as [->| ->]; [lia|].
    rewrite wrap32_small by (unfold INT_MIN, INT_MAX; lia). lia.
Qed.

Lemma X15_witness :
  exists s0 s',
    MainLoop jump_then_restart initial_game = Some s0 /\
    jumpingUp s0 = false /\ isJumping s0 = false /\
    MainLoop_turn space_key 0 0 s0 = Some s' /\
    isJumping s' = false /\ currentDinoHeight s' <= 0.
Proof.
  eexists. eexists.
  split; [vm_compute; reflexivity|].
  split; [reflexivity|]. split; [reflexivity|].
  split; [vm_compute; reflexivity|].
  match goal with
  | |- isJumping ?s' = false /\ _ =>
      destruct (X15_jump_lost_after_restart space_key 0 0
                  (mkGame false false false 1 1 false false false 5 4 400 0
                     true 0 395) s'
                  eq_refl eq_refl eq_refl eq_refl eq_refl
                  ltac:(cbn; lia) eq_refl) as (_ & _ & A & _ & B)
  end.
  split; [exact A|exact B].
Defined.

Lemma jump_keeps (s : Game) :
  cactusPosition (jump s) = cactusPosition s /\
  gDebug (jump s) = gDebug s /\ gameOver (jump s) = gameOver s.
Proof.
  unfold jump. destruct (isJumping s); [|auto].
  destruct (jumpingUp s); [fields; auto|].
  destruct (_ <=? 0); fields; auto.
Qed.

(** X16.  While the cactus moves by at most 51 a turn it cannot pass the
    dino unnoticed: in the turn in which it reaches -100 or less it is still
    inside the collision window, so the game is over unless the dino is at
    height 75 or more or debug mode is on.  A faster cactus can jump over
    the window: at speed 52, from -99 it lands on -151 and the game goes
    on. *)
Theorem X16_collision_window (r1 r2 : Z) (s s' : Game) :
  game_inv s -> gDebug s = false ->
  cactusSpeed s <= 49 -> -100 < cactusPosition s ->
  game_update r1 r2 s = Some s' ->
  cactusPosition s' <= -100 -> currentDinoHeight s' < 75 ->
  gameOver s' = true /\
  exists t t',
    game_inv t /\ gDebug t = false /\ cactusSpeed t = 52 /\
    cactusPosition t = -99 /\ game_update r1 r2 t = Some t' /\
    cactusPosition t' = -151 /\ currentDinoHeight t' < 75 /\
    gameOver t' = false.
Proof.
  intros I Dbg Cs Cp E Cp' H'. split.
  - unfold game_update in E.
    destruct (advance_clock_keeps s) as (_ & _ & _ & A4 & A5 & A6 & _ & _ & A9).
    destruct I as (_ & S & _ & St & P & _).
    destruct (move_cactus r1 r2 (advance_clock s)) as [s1|] eqn:M; [|discriminate].
    injection E as <-.
    destruct (move_cactus_keeps r1 r2 _ _ M) as (_ & _ & _ & M4 & _ & _).
    destruct (jump_keeps s1) as (J1 & J2 & _).
    destruct (collide_keeps (jump s1)) as (_ & _ & C3 & C4 & _ & C6).
    rewrite C6. rewrite C3 in H'. rewrite C4, J1 in Cp'.
    rewrite J1, J2, M4, A4, Dbg.
    assert (B : -150 <= cactusPosition s1).
    { unfold move_cactus in M. rewrite A5, A6 in M.
      assert (V : cactusSpeed (advance_clock s) <= 51).
      { destruct A9 as [->| ->]; [lia|].
        rewrite wrap32_small by (unfold INT_MIN, INT_MAX; lia). lia. }
      assert (V0 : 5 <= cactusSpeed (advance_clock s)).
      { destruct A9 as [->| ->]; [lia|].
        rewrite wrap32_small by (unfold INT_MIN, INT_MAX; lia). lia. }
      rewrite (wrap32_small (cactusStart s * 2)) in M
        by (unfold INT_MIN, INT_MAX; lia).
      rewrite (wrap32_small (- (cactusStart s * 2))) in M
        by (unfold INT_MIN, INT_MAX; lia).
      rewrite (wrap32_small (cactusPosition s - _)) in M
        by (unfold INT_MIN, INT_MAX; lia).
      destruct (Z.leb_spec (cactusPosition s - cactusSpeed (advance_clock s))
                  (- (cactusStart s * 2))); [lia|].
      injection M as <-. fields. lia. }
    apply orb_true_iff. right.
    rewrite !andb_true_iff. repeat split.
    + apply Z.ltb_lt. exact H'.
    + apply Z.leb_le. exact Cp'.
    + apply Z.leb_le. exact B.
  - exists (mkGame false false false 0 0 false true false 52 4 400 0 true 0 (-99)).
    eexists. split.
    + unfold game_inv. cbn. repeat split; intros; try discriminate; lia.
    + repeat split; reflexivity.
Qed.

Lemma X16_witness :
  exists s',
    game_update 0 0
      (mkGame false false false 0 0 false true false 49 4 400 0 true 0 (-99))
    = Some s' /\ gameOver s' = true.
Proof.
  eexists. split; [vm_compute; reflexivity|].
  match goal with
  | |- gameOver ?s' = true =>
      refine (proj1 (X16_collision_window 0 0
                (mkGame false false false 0 0 false true false 49 4 400 0 true
                   0 (-99)) s' _ eq_refl _ _ eq_refl _ _))
  end.
  - unfold game_inv. cbn. repeat split; intros; try discriminate; lia.
  - cbn. lia.
  - cbn. lia.
  - cbn. lia.
  - cbn. lia.
Defined.

Lemma Input_no_keys (s : Game) : Input no_keys s = s.
Proof. destruct s. reflexivity. Qed.

(** In debug mode a turn of the game logic only advances the clock, as far
    as the day ticker, the time of day and the flags are concerned. *)
Lemma game_update_debug (r1 r2 : Z) (s s' : Game) :
  game_update r1 r2 s = Some s' ->
  gDebug s = true -> gameOver s = false ->
  gQuit s' = gQuit s /\ gDebug s' = true /\ gameOver s' = false /\
  dayTick s' = dayTick (advance_clock s) /\
  isDaytime s' = isDaytime (advance_clock s).
Proof.
  intros E Dbg Go. unfold game_update in E.
  assert (A : gQuit (advance_clock s) = gQuit s /\
              gDebug (advance_clock s) = true /\
              gameOver (advance_clock s) = false).
  { unfold advance_clock. destruct (_ =? 1000); fields; auto. }
  destruct A as (A1 & A2 & A3).
  destruct (advance_clock s) as [q pl dbg tk dt ij ju go cs js st co day h cp].
  fields. subst dbg go. rewrite <- A1. clear A1.
  unfold move_cactus, jump, collide in E. fields.
  rewrite ?andb_false_r in E.
  destruct (_ <=? wrap32 _) in E; [destruct (cs =? 0) in E; [discriminate|]|];
    fields; rewrite ?andb_false_r in E;
    destruct ij; fields; rewrite ?andb_false_r in E;
    try (destruct ju; fields; rewrite ?andb_false_r in E);
    try (destruct (_ <=? 0) in E; fields; rewrite ?andb_false_r in E);
    injection E as <-; fields; repeat split; reflexivity.
Qed.

Lemma idle_run (inputs : list (Keys * Z * Z)) :
  forall s,
    game_inv s -> rand_ok inputs -> idle inputs ->
    gDebug s = true -> gameOver s = false -> gQuit s = false ->
    cactusSpeed s + 7 * Z.of_nat (length inputs) <= 1000000000 ->
    jumpingSpeed s + 2 * Z.of_nat (length inputs) <= 1000000000 ->
    dayTick s + Z.of_nat (length inputs) < 1000 ->
    exists s',
      MainLoop inputs s = Some s' /\ game_inv s' /\
      gDebug s' = true /\ gameOver s' = false /\ gQuit s' = false /\
      cactusSpeed s' <= cactusSpeed s + 7 * Z.of_nat (length inputs) /\
      jumpingSpeed s' <= jumpingSpeed s + 2 * Z.of_nat (length inputs) /\
      dayTick s' = dayTick s + Z.of_nat (length inputs) /\
      isDaytime s' = isDaytime s.
Proof.
  unfold rand_ok, idle.
  induction inputs as [|[[k r1] r2] inputs IH]; intros s I R Id Dbg Go Q Bs Bj Dt.
  - refine (ex_intro _ s (conj eq_refl (conj I (conj Dbg (conj Go (conj Q
              (conj _ (conj _ (conj _ eq_refl))))))))); cbn [length]; lia.
  - inversion R as [|x l HR R' Eq]; subst. cbn in HR. destruct HR as [R1 R2].
    inversion Id as [|x l Hk Id' Eq]; subst; try (cbn in Hk; subst k).
    cbn [length] in Bs, Bj, Dt. cbn [MainLoop]. rewrite Q.
    destruct (MainLoop_turn_inv no_keys r1 r2 s I) as (s1 & E & I1 & C1 & J1);
      try lia.
    rewrite E. unfold MainLoop_turn in E. rewrite Input_no_keys, Go in E.
    destruct (game_update_debug r1 r2 s s1 E Dbg Go) as (G1 & G2 & G3 & G4 & G5).
    assert (Ck : dayTick (advance_clock s) = dayTick s + 1 /\
                 isDaytime (advance_clock s) = isDaytime s).
    { unfold advance_clock. destruct I as (D & _).
      rewrite wrap32_small by (unfold INT_MIN, INT_MAX; lia).
      destruct (Z.eqb_spec (dayTick s + 1) 1000); [lia|]. fields. auto. }
    destruct Ck as (K1 & K2).
    destruct (IH s1) as (s' & E' & I' & D' & G' & Q' & C' & J' & T' & Y');
      try assumption; try lia; try congruence.
    refine (ex_intro _ s' (conj E' (conj I' (conj D' (conj G' (conj Q'
              (conj _ (conj _ (conj _ _))))))))); cbn [length];
      try lia; congruence.
Qed.

(** X17.  The time of day changes every 1000 turns: from a day ticker of 0,
    a run of fewer than 1000 turns (no key pressed, debug mode on so that
    no collision ends the game) leaves [isDaytime] as it was with the ticker
    at the number of turns, and the 1000th turn flips it and resets the
    ticker to 0. *)
Theorem X17_day_lasts_1000_turns (inputs : list (Keys * Z * Z))
    (r1 r2 : Z) (s : Game) :
  game_inv s -> rand_ok inputs -> idle inputs -> 0 <= r1 -> 0 <= r2 ->
  gDebug s = true -> gameOver s = false -> gQuit s = false ->
  cactusSpeed s <= 100000 -> jumpingSpeed s <= 100000 ->
  dayTick s = 0 -> (length inputs <= 999)%nat ->
  exists s',
    MainLoop inputs s = Some s' /\
    dayTick s' = Z.of_nat (length inputs) /\ isDaytime s' = isDaytime s /\
    (length inputs = 999%nat ->
     exists s'',
       MainLoop (inputs ++ [(no_keys, r1, r2)]) s = Some s'' /\
       dayTick s'' = 0 /\ isDaytime s'' = negb (isDaytime s)).
Proof.
  intros I R Id R1 R2 Dbg Go Q Bs Bj Dt Len.
  destruct (idle_run inputs s I R Id Dbg Go Q)
    as (s' & E & I' & D' & G' & Q' & C' & J' & T' & Y'); try lia.
  exists s'. split; [exact E|]. split; [lia|]. split; [exact Y'|].
  intros L.
  assert (Run : forall l1 l2 a b,
            MainLoop l1 a = Some b -> MainLoop (l1 ++ l2) a = MainLoop l2 b
            \/ gQuit b = true).
  { induction l1 as [|[[k q1] q2] l1 IHl]; intros l2 a b Ha.
    - injection Ha as ->. left. reflexivity.
    - cbn [MainLoop app] in *. destruct (gQuit a) eqn:Qa.
      + injection Ha as <-. right. exact Qa.
      + destruct (MainLoop_turn k q1 q2 a); [|discriminate].
        apply IHl, Ha. }
  destruct (Run inputs [(no_keys, r1, r2)] s s' E) as [Rn|Rn]; [|congruence].
  destruct (MainLoop_turn_inv no_keys r1 r2 s' I') as (s2 & E2 & _); try lia.
  exists s2. rewrite Rn. cbn [MainLoop]. rewrite Q', E2.
  split; [reflexivity|].
  unfold MainLoop_turn in E2. rewrite Input_no_keys, G' in E2.
  destruct (game_update_debug r1 r2 s' s2 E2 D' G') as (_ & _ & _ & G4 & G5).
  rewrite G4, G5. unfold advance_clock.
  rewrite (wrap32_small (dayTick s' + 1)) by (unfold INT_MIN, INT_MAX; lia).
  destruct (Z.eqb_spec (dayTick s' + 1) 1000) as [_|N]; [|lia].
  fields. split; [reflexivity|]. rewrite Y'. reflexivity.
Qed.

Lemma X17_witness :
  exists s',
    MainLoop (repeat (no_keys, 0, 0) 999)
      (mkGame false false true 0 0 false true false 5 4 400 0 true 0 400)
    = Some s' /\ dayTick s' = 999 /\ isDaytime s' = true.
Proof.
  destruct (X17_day_lasts_1000_turns (repeat (no_keys, 0, 0) 999) 0 0
              (mkGame false false true 0 0 false true false 5 4 400 0 true 0 400))
    as (s' & E & D & Y & _).
  - unfold game_inv. cbn. repeat split; intros; try discriminate; lia.
  - apply Forall_forall. intros x Hx. apply repeat_spec in Hx. subst x.
    cbn. lia.
  - apply Forall_forall. intros x Hx. apply repeat_spec in Hx. subst x.
    reflexivity.
  - lia.
  - lia.
  - reflexivity.
  - reflexivity.
  - reflexivity.
  - cbn. lia.
  - cbn. lia.
  - reflexivity.
  - rewrite repeat_length. lia.
  - exists s'. split; [exact E|]. rewrite repeat_length in D.
    split; [exact D|exact Y].
Defined.
